(** * Vehicle-Booking: booking admission and conflict detection

    A shallow embedding of the Express/Prisma back end in
    [backend/src/routes/bookings.ts] and [backend/src/routes/admin.ts].

    - A [Date] is the number of milliseconds since the epoch, an integer
      ([Z]); JavaScript compares two dates by that number.
    - The database is a record of two tables, each a list of rows.  The
      Prisma calls the routes make ([findUnique], [findFirst], [count],
      [create], [update], [delete]) are functions on that record.
    - A handler of [bookings.ts] throws [AppError]s; it is written in a small
      error monad ([result]).  A handler of [admin.ts] answers through
      [res.status(..).json(..)]; it returns the database and the response.
    - Request bodies are modelled after [express-validator] and
      [new Date(..)] have run: identifiers are strings, instants are
      integers. *)

From Stdlib Require Import ZArith List String Bool Lia.
From Stdlib Require Import Sorted Permutation.
Import ListNotations.
Local Open Scope string_scope.
Local Open Scope Z_scope.

(** ** Data model *)

Definition Date := Z.

Module User.
Record t := mk { id : string; email : string }.
End User.

Module Vehicle.
Record t := mk { id : string; name : string; isActive : bool }.
End Vehicle.

Module Booking.
Record t := mk {
  id : string;
  userId : string;
  vehicleId : string;
  startTime : Date;
  endTime : Date;
  title : option string;
  description : option string
}.
End Booking.

Record Db := mkDb {
  bookings : list Booking.t;
  vehicles : list Vehicle.t
}.

(** JavaScript truthiness of a string: every string but the empty one. *)
Definition truthy (s : string) : bool :=
  match s with
  | EmptyString => false
  | String _ _ => true
  end.

(** [x || null] on an optional string. *)
Definition orNull (o : option string) : option string :=
  match o with
  | Some s => if truthy s then Some s else None
  | None => None
  end.

(** ** The Prisma calls used by the routes *)

Module prisma.

Definition booking_findUnique (db : Db) (id : string) : option Booking.t :=
  find (fun b => String.eqb (Booking.id b) id) (bookings db).

Definition booking_findFirst (db : Db) (where_ : Booking.t -> bool)
  : option Booking.t :=
  find where_ (bookings db).

Definition booking_count (db : Db) (where_ : Booking.t -> bool) : nat :=
  List.length (filter where_ (bookings db)).

Definition vehicle_findUnique (db : Db) (id : string) : option Vehicle.t :=
  find (fun v => String.eqb (Vehicle.id v) id) (vehicles db).

Definition booking_create (db : Db) (b : Booking.t) : Db :=
  mkDb (bookings db ++ [b]) (vehicles db).

(** [update({ where: { id }, data })] rewrites the row with that id by
    [data]. *)
Definition booking_update (db : Db) (id : string)
    (data : Booking.t -> Booking.t) : Db :=
  mkDb (map (fun b => if String.eqb (Booking.id b) id then data b else b)
            (bookings db))
       (vehicles db).

(** The same call where it can throw, as in [admin.ts], which makes it
    without looking the row up first: Prisma throws when no row has the
    id, and PostgreSQL refuses a [vehicleId] without a vehicle row (the
    relation [vehicle] that the routes [include] is a foreign key).  [None]
    stands for the exception; otherwise the new database and the
    updated row. *)
Definition booking_update_or_throw (db : Db) (id : string)
    (data : Booking.t -> Booking.t) : option (Db * Booking.t) :=
  match booking_findUnique db id with
  | None => None
  | Some b =>
      match vehicle_findUnique db (Booking.vehicleId (data b)) with
      | None => None
      | Some _ => Some (booking_update db id data, data b)
      end
  end.

(** [vehicle.delete({ where: { id } })]: throws ([None]) when no vehicle
    has the id. *)
Definition vehicle_delete (db : Db) (id : string) : option Db :=
  match vehicle_findUnique db id with
  | None => None
  | Some _ =>
      Some (mkDb (bookings db)
              (filter (fun v => negb (String.eqb (Vehicle.id v) id))
                      (vehicles db)))
  end.

End prisma.

(** ** Conflict detection ([bookings.ts], lines 21-52) *)

(** The [OR] of the three branches of the query, for a stored row
    [startTime_b, endTime_b] and the candidate [startTime, endTime]. *)
Definition conflictOR (startTime endTime : Date) (startTime_b endTime_b : Date)
  : bool :=
  (* New booking starts during an existing booking *)
  ((startTime_b <=? startTime) && (endTime_b >? startTime))
  (* New booking ends during an existing booking *)
  || ((startTime_b <? endTime) && (endTime_b >=? endTime))
  (* New booking completely contains an existing booking *)
  || ((startTime_b >=? startTime) && (endTime_b <=? endTime)).

(** [id: excludeBookingId ? { not: excludeBookingId } : undefined] *)
Definition idFilter (excludeBookingId : option string) (b : Booking.t) : bool :=
  match excludeBookingId with
  | Some x => if truthy x then negb (String.eqb (Booking.id b) x) else true
  | None => true
  end.

(** The whole [where] clause of [checkBookingConflict]. *)
Definition conflictWhere (vehicleId : string) (startTime endTime : Date)
    (excludeBookingId : option string) (b : Booking.t) : bool :=
  String.eqb (Booking.vehicleId b) vehicleId
  && idFilter excludeBookingId b
  && conflictOR startTime endTime (Booking.startTime b) (Booking.endTime b).

Definition checkBookingConflict (db : Db) (vehicleId : string)
    (startTime endTime : Date) (excludeBookingId : option string) : bool :=
  match prisma.booking_findFirst db
          (conflictWhere vehicleId startTime endTime excludeBookingId) with
  | Some _ => true
  | None => false
  end.

(** The [where] clause of the admin route ([admin.ts], lines 213-224):
    one branch, [startTime < end] and [endTime > start]. *)
Definition adminOR (startTime endTime : Date) (startTime_b endTime_b : Date)
  : bool :=
  (startTime_b <? endTime) && (endTime_b >? startTime).

Definition adminConflictWhere (id vehicleId : string) (startTime endTime : Date)
    (b : Booking.t) : bool :=
  negb (String.eqb (Booking.id b) id)
  && String.eqb (Booking.vehicleId b) vehicleId
  && adminOR startTime endTime (Booking.startTime b) (Booking.endTime b).

(** The interval-intersection test of the specification:
    [s1 < e2 && s2 < e1]. *)
Definition intersects (s1 e1 s2 e2 : Date) : bool :=
  (s1 <? e2) && (s2 <? e1).


(** ** Errors and the handlers of [bookings.ts] *)

(** The rejection kinds of the specification, one per [throw] of the
    booking routes, and [BookingNotFound] for the 404 of a missing row. *)
Inductive Kind :=
| InvalidInterval
| PastBooking
| VehicleNotFound
| Conflict
| Forbidden
| BookingNotFound.

(** [new AppError(message, statusCode)], tagged with its kind. *)
Record AppError := mkAppError {
  kind : Kind;
  message : string;
  statusCode : Z
}.

Inductive result (A : Type) : Type :=
| Ok (a : A)
| Throw (e : AppError).
Arguments Ok {A} a.
Arguments Throw {A} e.

Definition bind {A B : Type} (c : result A) (k : A -> result B) : result B :=
  match c with
  | Ok a => k a
  | Throw e => Throw e
  end.

Notation "x <- c ;; k" := (bind c (fun x => k))
  (at level 61, c at next level, right associativity).
Notation "c ;;; k" := (bind c (fun _ => k))
  (at level 61, right associativity).

(** [if (cond) throw e] *)
Definition throwIf (cond : bool) (e : AppError) : result unit :=
  if cond then Throw e else Ok tt.

(** [if (!x) throw e] for a row that a query may not find. *)
Definition orThrow {A : Type} (x : option A) (e : AppError) : result A :=
  match x with
  | Some a => Ok a
  | None => Throw e
  end.

(** What a handler reads of a result: the kind of the rejection, if any. *)
Definition rejection {A : Type} (r : result A) : option Kind :=
  match r with
  | Ok _ => None
  | Throw e => Some (kind e)
  end.

Module Body.
Record t := mk {
  vehicleId : string;
  startTime : Date;
  endTime : Date;
  title : option string;
  description : option string
}.
End Body.

(** [POST /api/bookings] ([bookings.ts], lines 207-286).  [now] is the
    value of [new Date()] and [newId] the id the database gives the row. *)
Definition post_bookings (db : Db) (now : Date) (user : User.t)
    (newId : string) (body : Body.t) : result (Db * Booking.t) :=
  let vehicleId := Body.vehicleId body in
  let start := Body.startTime body in
  let end_ := Body.endTime body in
  throwIf (end_ <=? start)
    (mkAppError InvalidInterval "End time must be after start time" 400) ;;;
  throwIf (start <? now)
    (mkAppError PastBooking "Cannot create bookings in the past" 400) ;;;
  vehicle <- orThrow (prisma.vehicle_findUnique db vehicleId)
    (mkAppError VehicleNotFound "Vehicle not found" 404) ;;
  let hasConflict := checkBookingConflict db vehicleId start end_ None in
  throwIf hasConflict
    (mkAppError Conflict
       "This time slot is already booked for this vehicle. Please choose a different time."
       409) ;;;
  let booking :=
    Booking.mk newId (User.id user) vehicleId start end_
      (orNull (Body.title body)) (orNull (Body.description body)) in
  Ok (prisma.booking_create db booking, booking).

(** The [data] of the update of the user route. *)
Definition put_data (body : Body.t) (b : Booking.t) : Booking.t :=
  Booking.mk (Booking.id b) (Booking.userId b) (Body.vehicleId body)
    (Body.startTime body) (Body.endTime body)
    (orNull (Body.title body)) (orNull (Body.description body)).

(** [PUT /api/bookings/:id] ([bookings.ts], lines 292-386). *)
Definition put_bookings_id (db : Db) (now : Date) (user : User.t)
    (id : string) (body : Body.t) : result (Db * Booking.t) :=
  let vehicleId := Body.vehicleId body in
  existingBooking <- orThrow (prisma.booking_findUnique db id)
    (mkAppError BookingNotFound "Booking not found" 404) ;;
  throwIf (negb (String.eqb (Booking.userId existingBooking) (User.id user)))
    (mkAppError Forbidden "You can only edit your own bookings" 403) ;;;
  let start := Body.startTime body in
  let end_ := Body.endTime body in
  throwIf (end_ <=? start)
    (mkAppError InvalidInterval "End time must be after start time" 400) ;;;
  throwIf (start <? now)
    (mkAppError PastBooking "Cannot set booking time to the past" 400) ;;;
  vehicle <- orThrow (prisma.vehicle_findUnique db vehicleId)
    (mkAppError VehicleNotFound "Vehicle not found" 404) ;;
  let hasConflict := checkBookingConflict db vehicleId start end_ (Some id) in
  throwIf hasConflict
    (mkAppError Conflict
       "This time slot conflicts with another booking. Please choose a different time."
       409) ;;;
  Ok (prisma.booking_update db id (put_data body),
      put_data body existingBooking).

(** ** The admin routes ([admin.ts]) *)

Definition ADMIN_EMAILS : list string :=
  ["admin@example.com"; "demo@example.com"].

(** [requireAdmin]: [true] when the middleware calls [next()], [false] when
    it answers 403.  [user] is [req.user]. *)
Definition requireAdmin (user : option User.t) : bool :=
  match user with
  | None => false
  | Some u => existsb (String.eqb (User.email u)) ADMIN_EMAILS
  end.

Module Res.
Inductive json :=
| error (msg : string)
| cannotDeleteVehicle (bookingCount : nat)
| message (msg : string)
| bookingUpdated (b : Booking.t).
Record t := mk { status : Z; body : json }.
End Res.

(** [router.use(requireAdmin)] in front of a handler. *)
Definition admin_route (user : option User.t) (handler : Db -> Db * Res.t)
    (db : Db) : Db * Res.t :=
  if requireAdmin user then handler db
  else (db, Res.mk 403 (Res.error "Admin access required")).

(** The body of the admin update.  Every field may be missing; a field
    that is missing or falsy is [None] for [vehicleId], [startTime] and
    [endTime], and [undefined] is [None] for [title] and [description]. *)
Module AdminBody.
Record t := mk {
  vehicleId : option string;
  startTime : option Date;
  endTime : option Date;
  title : option string;
  description : option string
}.
End AdminBody.

(** [x && ..] on the optional [vehicleId]. *)
Definition truthyId (o : option string) : option string :=
  match o with
  | Some s => if truthy s then Some s else None
  | None => None
  end.

(** The spread [data] of the admin update. *)
Definition admin_put_data (body : AdminBody.t) (b : Booking.t) : Booking.t :=
  Booking.mk (Booking.id b) (Booking.userId b)
    (match truthyId (AdminBody.vehicleId body) with
     | Some v => v
     | None => Booking.vehicleId b
     end)
    (match AdminBody.startTime body with
     | Some s => s
     | None => Booking.startTime b
     end)
    (match AdminBody.endTime body with
     | Some e => e
     | None => Booking.endTime b
     end)
    (match AdminBody.title body with
     | Some t => Some t
     | None => Booking.title b
     end)
    (match AdminBody.description body with
     | Some d => Some d
     | None => Booking.description b
     end).

(** The conflict query of the admin update, made only when [vehicleId],
    [startTime] and [endTime] are all there. *)
Definition admin_conflict (db : Db) (id : string) (body : AdminBody.t)
  : option Booking.t :=
  match truthyId (AdminBody.vehicleId body),
        AdminBody.startTime body, AdminBody.endTime body with
  | Some vehicleId, Some startTime, Some endTime =>
      prisma.booking_findFirst db
        (adminConflictWhere id vehicleId startTime endTime)
  | _, _, _ => None
  end.

(** [PUT /bookings/:id] of [admin.ts] (lines 206-251). *)
Definition admin_put_bookings_id (id : string) (body : AdminBody.t) (db : Db)
  : Db * Res.t :=
  match admin_conflict db id body with
  | Some _ =>
      (db, Res.mk 409
             (Res.error "This time slot conflicts with another booking"))
  | None =>
      match prisma.booking_update_or_throw db id (admin_put_data body) with
      | Some (db', booking) => (db', Res.mk 200 (Res.bookingUpdated booking))
      | None => (db, Res.mk 500 (Res.error "Failed to update booking"))
      end
  end.

(** [DELETE /vehicles/:id] of [admin.ts] (lines 150-171). *)
Definition admin_delete_vehicles_id (id : string) (db : Db) : Db * Res.t :=
  let bookingCount :=
    prisma.booking_count db (fun b => String.eqb (Booking.vehicleId b) id) in
  if (0 <? bookingCount)%nat then
    (db, Res.mk 400 (Res.cannotDeleteVehicle bookingCount))
  else
    match prisma.vehicle_delete db id with
    | Some db' => (db', Res.mk 200 (Res.message "Vehicle deleted successfully"))
    | None => (db, Res.mk 500 (Res.error "Failed to delete vehicle"))
    end.

(** ** Predicates used in the statements *)

(** Invariant 1 of the data model on a stored row. *)
Definition validRow (b : Booking.t) : Prop :=
  Booking.startTime b < Booking.endTime b.

(** [conflicts A B]: the decision of [checkBookingConflict] for the
    candidate [A] when the only stored booking of the vehicle is [B]. *)
Definition conflicts (A B : Date * Date) : bool :=
  checkBookingConflict
    (mkDb [Booking.mk "b" "u" "v" (fst B) (snd B) None None] [])
    "v" (fst A) (snd A) None.

(** A stored row, other than the one with id [id], that meets the
    three-branch query for the candidate. *)
Definition otherConflict (db : Db) (id vehicleId : string)
    (startTime endTime : Date) : bool :=
  existsb (fun b =>
             negb (String.eqb (Booking.id b) id)
             && String.eqb (Booking.vehicleId b) vehicleId
             && conflictOR startTime endTime
                  (Booking.startTime b) (Booking.endTime b))
          (bookings db).

(** The database with the [isActive] flag of every vehicle rewritten. *)
Definition setActive (f : Vehicle.t -> bool) (db : Db) : Db :=
  mkDb (bookings db)
       (map (fun v => Vehicle.mk (Vehicle.id v) (Vehicle.name v) (f v))
            (vehicles db)).

Definition mapDb {A : Type} (g : Db -> Db) (r : result (Db * A))
  : result (Db * A) :=
  match r with
  | Ok (db, a) => Ok (g db, a)
  | Throw e => Throw e
  end.

(** ** Sample data *)

Module Ex.

Definition alice : User.t := User.mk "u1" "alice@example.com".
Definition bob : User.t := User.mk "u2" "bob@example.com".
Definition admin : User.t := User.mk "u0" "admin@example.com".

Definition van : Vehicle.t := Vehicle.mk "v1" "Van" true.
Definition truck : Vehicle.t := Vehicle.mk "v2" "Truck" false.

(** A booking of the van by alice. *)
Definition row (id : string) (s e : Date) : Booking.t :=
  Booking.mk id "u1" "v1" s e None None.

(** One valid booking, [10, 20). *)
Definition db0 : Db := mkDb [row "b1" 10 20] [van; truck].

(** Two valid bookings that do not overlap. *)
Definition db2 : Db := mkDb [row "b1" 10 20; row "b2" 30 40] [van; truck].

(** A body with only the two instants, as the admin update accepts it. *)
Definition times (s e : Date) : AdminBody.t :=
  AdminBody.mk None (Some s) (Some e) None None.

End Ex.

(** ** The remaining routes of [bookings.ts] *)

(** [orderBy] and [Array.prototype.sort]: a stable insertion sort; [le x y]
    says that [x] may come before [y].  Rows with equal keys, whose order
    the database is free to choose, keep the order of the table. *)
Fixpoint insertBy {A : Type} (le : A -> A -> bool) (x : A) (l : list A)
  : list A :=
  match l with
  | [] => [x]
  | y :: l' => if le x y then x :: y :: l' else y :: insertBy le x l'
  end.

Definition sortBy {A : Type} (le : A -> A -> bool) (l : list A) : list A :=
  fold_right (insertBy le) [] l.

Definition startTime_asc (a b : Booking.t) : bool :=
  Booking.startTime a <=? Booking.startTime b.

Definition startTime_desc (a b : Booking.t) : bool :=
  Booking.startTime b <=? Booking.startTime a.

(** [prisma.booking.findMany({ where, orderBy })] *)
Definition booking_findMany (db : Db) (where_ : Booking.t -> bool)
    (orderBy : Booking.t -> Booking.t -> bool) : list Booking.t :=
  sortBy orderBy (filter where_ (bookings db)).

(** [prisma.booking.delete({ where: { id } })] on a row that exists. *)
Definition booking_delete (db : Db) (id : string) : Db :=
  mkDb (filter (fun b => negb (String.eqb (Booking.id b) id)) (bookings db))
       (vehicles db).

(** [prisma.booking.deleteMany({ where })]: the new table and
    [result.count]. *)
Definition booking_deleteMany (db : Db) (where_ : Booking.t -> bool)
  : Db * nat :=
  (mkDb (filter (fun b => negb (where_ b)) (bookings db)) (vehicles db),
   prisma.booking_count db where_).

(** The query of [GET /api/bookings]: a parameter that is missing or
    empty is [None]. *)
Module Query.
Record t := mk {
  vehicleId : option string;
  start : option Date;
  end_ : option Date;
  userId : option string
}.
End Query.

(** The [where] clause built by [GET /api/bookings] (lines 77-96). *)
Definition listWhere (q : Query.t) (b : Booking.t) : bool :=
  match truthyId (Query.vehicleId q) with
  | Some v => String.eqb (Booking.vehicleId b) v
  | None => true
  end
  && match truthyId (Query.userId q) with
     | Some u => String.eqb (Booking.userId b) u
     | None => true
     end
  && match Query.start q with
     | Some s => Booking.startTime b >=? s
     | None => true
     end
  && match Query.end_ q with
     | Some e => Booking.endTime b <=? e
     | None => true
     end.

(** [GET /api/bookings] (lines 59-122), the rows of the answer. *)
Definition get_bookings (db : Db) (q : Query.t) : list Booking.t :=
  booking_findMany db (listWhere q) startTime_asc.

(** The answer of [GET /api/bookings/my]. *)
Module My.
Record t := mk {
  bookings : list Booking.t;
  upcoming : list Booking.t;
  past : list Booking.t
}.
End My.

(** [GET /api/bookings/my] (lines 128-158). *)
Definition get_bookings_my (db : Db) (now : Date) (user : User.t) : My.t :=
  let bookings :=
    booking_findMany db
      (fun b => String.eqb (Booking.userId b) (User.id user))
      startTime_desc in
  let upcoming := filter (fun b => Booking.endTime b >=? now) bookings in
  let past := filter (fun b => Booking.endTime b <? now) bookings in
  My.mk bookings (rev upcoming) past.

(** [GET /api/bookings/:id] (lines 164-201): the row and [isOwner]. *)
Definition get_bookings_id (db : Db) (user : User.t) (id : string)
  : result (Booking.t * bool) :=
  booking <- orThrow (prisma.booking_findUnique db id)
    (mkAppError BookingNotFound "Booking not found" 404) ;;
  Ok (booking, String.eqb (Booking.userId booking) (User.id user)).

(** [DELETE /api/bookings/:id] (lines 392-421). *)
Definition delete_bookings_id (db : Db) (user : User.t) (id : string)
  : result Db :=
  existingBooking <- orThrow (prisma.booking_findUnique db id)
    (mkAppError BookingNotFound "Booking not found" 404) ;;
  throwIf (negb (String.eqb (Booking.userId existingBooking) (User.id user)))
    (mkAppError Forbidden "You can only cancel your own bookings" 403) ;;;
  Ok (booking_delete db id).

(** ** The error middleware *)

(** What [errorHandler] tells apart in an error: an [AppError] (it has
    [statusCode] and [isOperational]), or another error with its [name],
    its [message] and, for Prisma, its [code]. *)
Inductive Err :=
| AppErr (e : AppError)
| OtherErr (name : string) (msg : string) (code : option string).

(** [errorHandler]: the status and the [error] field of the answer. *)
Definition errorHandler (err : Err) : Z * string :=
  match err with
  | AppErr e => (statusCode e, message e)
  | OtherErr name msg code =>
      if String.eqb name "ValidationError" then (400, msg)
      else if String.eqb name "PrismaClientKnownRequestError" then
        match code with
        | Some c =>
            if String.eqb c "P2002" then
              (409, "A record with this data already exists")
            else if String.eqb c "P2025" then (404, "Record not found")
            else (500, "Internal server error")
        | None => (500, "Internal server error")
        end
      else (500, "Internal server error")
  end.

(** ** The remaining booking routes of [admin.ts] *)

Module Reply.
Inductive json :=
| error (msg : string)
| bookingsDeleted (count : nat)
| pastBookingsDeleted (count : nat)
| bookingList (bookings : list Booking.t) (total : nat).
Record t := mk { status : Z; body : json }.
End Reply.

(** The query of the admin list. *)
Module AdminQuery.
Record t := mk {
  userId : option string;
  vehicleId : option string;
  startDate : option Date;
  endDate : option Date
}.
End AdminQuery.

(** The [where] clause of the admin list (lines 180-188): both dates bound
    [startTime]. *)
Definition adminListWhere (q : AdminQuery.t) (b : Booking.t) : bool :=
  match truthyId (AdminQuery.userId q) with
  | Some u => String.eqb (Booking.userId b) u
  | None => true
  end
  && match truthyId (AdminQuery.vehicleId q) with
     | Some v => String.eqb (Booking.vehicleId b) v
     | None => true
     end
  && match AdminQuery.startDate q with
     | Some s => Booking.startTime b >=? s
     | None => true
     end
  && match AdminQuery.endDate q with
     | Some e => Booking.startTime b <=? e
     | None => true
     end.

(** [GET /bookings] of [admin.ts] (lines 176-203). *)
Definition admin_get_bookings (q : AdminQuery.t) (db : Db) : Reply.t :=
  let bookings := booking_findMany db (adminListWhere q) startTime_desc in
  Reply.mk 200 (Reply.bookingList bookings (List.length bookings)).

(** [POST /bookings/bulk-delete] (lines 272-289); [ids] is [None] when the
    body holds no array. *)
Definition admin_bulk_delete (ids : option (list string)) (db : Db)
  : Db * Reply.t :=
  match ids with
  | None | Some [] =>
      (db, Reply.mk 400 (Reply.error "Provide an array of booking IDs"))
  | Some ids =>
      let result :=
        booking_deleteMany db
          (fun b => existsb (String.eqb (Booking.id b)) ids) in
      (fst result, Reply.mk 200 (Reply.bookingsDeleted (snd result)))
  end.

(** [DELETE /bookings/cleanup/past] (lines 292-304). *)
Definition admin_cleanup_past (now : Date) (db : Db) : Db * Reply.t :=
  let result := booking_deleteMany db (fun b => Booking.endTime b <? now) in
  (fst result, Reply.mk 200 (Reply.pastBookingsDeleted (snd result))).

(** ** [vehicles.ts] and the admin update of a vehicle *)

(** [GET /api/vehicles] (lines 12-31): the active vehicles by name;
    [name_le] is the order of the database on names. *)
Definition get_vehicles (name_le : string -> string -> bool) (db : Db)
  : list Vehicle.t :=
  sortBy (fun a b => name_le (Vehicle.name a) (Vehicle.name b))
         (filter Vehicle.isActive (vehicles db)).

(** [GET /api/vehicles/:id] (lines 37-65): the vehicle and
    [_count.bookings], or 404. *)
Definition get_vehicles_id (db : Db) (id : string)
  : option (Vehicle.t * nat) :=
  match prisma.vehicle_findUnique db id with
  | Some v =>
      Some (v, prisma.booking_count db
                 (fun b => String.eqb (Booking.vehicleId b) id))
  | None => None
  end.

(** The fields of the body of [PUT /vehicles/:id] that the model of a
    vehicle has; [None] is [undefined], which Prisma leaves alone. *)
Module VehicleBody.
Record t := mk { name : option string; isActive : option bool }.
End VehicleBody.

(** [PUT /vehicles/:id] of [admin.ts] (lines 133-147): the new database and
    the status, 500 when no vehicle has the id. *)
Definition admin_put_vehicles_id (id : string) (body : VehicleBody.t)
    (db : Db) : Db * Z :=
  match prisma.vehicle_findUnique db id with
  | None => (db, 500)
  | Some _ =>
      (mkDb (bookings db)
         (map (fun v =>
                 if String.eqb (Vehicle.id v) id then
                   Vehicle.mk (Vehicle.id v)
                     (match VehicleBody.name body with
                      | Some n => n
                      | None => Vehicle.name v
                      end)
                     (match VehicleBody.isActive body with
                      | Some a => a
                      | None => Vehicle.isActive v
                      end)
                 else v)
              (vehicles db)),
       200)
  end.

(** ** The pages that call the booking routes *)

(** The form of [BookingModal] ([BookingFormData]).  [startTime] and
    [endTime] are the strings of the [datetime-local] inputs: a date and a
    time of day, and no time zone. *)
Module Form.
Record t := mk {
  vehicleId : string;
  startTime : string;
  endTime : string;
  title : string;
  description : string
}.
End Form.



(** A sample form, and the reading of its two strings in UTC. *)
Module Ex2.



End Ex2.

(** [upcomingBookings] and [pastBookings] of the page [MyBookings]
    (lines 26-46), from [bookings.all]. *)
Definition page_upcoming (now : Date) (all : list Booking.t)
  : list Booking.t :=
  sortBy startTime_asc (filter (fun b => Booking.endTime b >? now) all).

Definition page_past (now : Date) (all : list Booking.t) : list Booking.t :=
  sortBy (fun a b => Booking.endTime b <=? Booking.endTime a)
         (filter (fun b => negb (Booking.endTime b >? now)) all).

(** ** Invariants of the table of bookings *)

(** Two rows are compatible when they are on different vehicles or their
    intervals do not intersect. *)
Definition compatible (a b : Booking.t) : Prop :=
  Booking.vehicleId a = Booking.vehicleId b ->
  intersects (Booking.startTime a) (Booking.endTime a)
             (Booking.startTime b) (Booking.endTime b) = false.

(** Every row is valid and no two rows are a double booking. *)
Definition noDoubleBooking (db : Db) : Prop :=
  Forall validRow (bookings db)
  /\ ForallOrdPairs compatible (bookings db).

(** The primary key. *)
Definition uniqueIds (db : Db) : Prop :=
  NoDup (map Booking.id (bookings db)).

(** The status that the booking routes give each kind of rejection. *)
Definition statusOf (k : Kind) : Z :=
  match k with
  | InvalidInterval => 400
  | PastBooking => 400
  | VehicleNotFound => 404
  | Conflict => 409
  | Forbidden => 403
  | BookingNotFound => 404
  end.

(** ** [lightenColor] of the front end's utilities *)

(** [ToInt32], which [>>] and [&] apply to their operands. *)
Definition toInt32 (z : Z) : Z := (z + 2 ^ 31) mod 2 ^ 32 - 2 ^ 31.

(** [c < 255 ? (c < 1 ? 0 : c) : 255] *)
Definition clampChannel (c : Z) : Z :=
  if c <? 255 then (if c <? 1 then 0 else c) else 255.

(** [lightenColor]: [num] is the value of [parseInt(hex.replace('#', ''),
    16)] and [amt] the value of [Math.round(2.55 * percent)]; the result
    is the number that the function prints in base 16 before it drops the
    first digit. *)
Definition lightenColor (num amt : Z) : Z :=
  let R := Z.shiftr (toInt32 num) 16 + amt in
  let G := Z.land (Z.shiftr (toInt32 num) 8) 0x00ff + amt in
  let B := Z.land (toInt32 num) 0x0000ff + amt in
  0x1000000 + clampChannel R * 0x10000 + clampChannel G * 0x100
  + clampChannel B.

(** ** Comparisons *)

(** Turns every integer comparison of the goal into a case analysis and
    closes the cases by linear arithmetic. *)
Ltac cmp_cases :=
  rewrite ?Z.gtb_ltb, ?Z.geb_leb;
  repeat match goal with
         | |- context [?a <=? ?b] => destruct (Z.leb_spec a b)
         | |- context [?a <? ?b] => destruct (Z.ltb_spec a b)
         end;
  simpl; try reflexivity; try discriminate; try lia.

Lemma conflictOR_intersects (s1 e1 s2 e2 : Date) :
  s1 < e1 -> s2 < e2 -> conflictOR s1 e1 s2 e2 = intersects s1 e1 s2 e2.
Proof. intros H1 H2. unfold conflictOR, intersects. cmp_cases. Qed.

Lemma adminOR_intersects (s1 e1 s2 e2 : Date) :
  adminOR s1 e1 s2 e2 = intersects s1 e1 s2 e2.
Proof. unfold adminOR, intersects. cmp_cases. Qed.

Lemma intersects_true (s1 e1 s2 e2 : Date) :
  intersects s1 e1 s2 e2 = true <-> s1 < e2 /\ s2 < e1.
Proof.
  unfold intersects. rewrite andb_true_iff, !Z.ltb_lt. reflexivity.
Qed.

Lemma idFilter_truthy (id : string) (b : Booking.t) :
  truthy id = true ->
  idFilter (Some id) b = negb (String.eqb (Booking.id b) id).
Proof. intros Hid. unfold idFilter. rewrite Hid. reflexivity. Qed.

Lemma find_ext_Forall {A : Type} (P : A -> Prop) (f g : A -> bool) :
  (forall x, P x -> f x = g x) ->
  forall l, Forall P l -> find f l = find g l.
Proof.
  intros Hfg l Hl. induction Hl as [|x l Hx _ IH]; simpl.
  - reflexivity.
  - rewrite (Hfg x Hx), IH. reflexivity.
Qed.

Lemma where_clauses_agree (id vehicleId : string) (s1 e1 : Date)
    (b : Booking.t) :
  s1 < e1 -> validRow b -> truthy id = true ->
  conflictWhere vehicleId s1 e1 (Some id) b
  = adminConflictWhere id vehicleId s1 e1 b.
Proof.
  intros H1 Hb Hid. unfold conflictWhere, adminConflictWhere.
  rewrite (idFilter_truthy _ _ Hid), (conflictOR_intersects _ _ _ _ H1 Hb),
    adminOR_intersects.
  destruct (String.eqb (Booking.vehicleId b) vehicleId),
    (String.eqb (Booking.id b) id); reflexivity.
Qed.

(** On a table of valid rows the query of the user route and the query of
    the admin route find the same row. *)
Lemma queries_agree (db : Db) (id vehicleId : string) (s1 e1 : Date) :
  s1 < e1 -> Forall validRow (bookings db) -> truthy id = true ->
  prisma.booking_findFirst db (conflictWhere vehicleId s1 e1 (Some id))
  = prisma.booking_findFirst db (adminConflictWhere id vehicleId s1 e1).
Proof.
  intros H1 Hdb Hid. unfold prisma.booking_findFirst.
  apply find_ext_Forall with (P := validRow); [|assumption].
  intros b Hb. apply where_clauses_agree; assumption.
Qed.

Lemma conflicts_OR (A B : Date * Date) :
  conflicts A B = conflictOR (fst A) (snd A) (fst B) (snd B).
Proof.
  unfold conflicts, checkBookingConflict, prisma.booking_findFirst,
    conflictWhere.
  simpl. destruct (conflictOR _ _ _ _); reflexivity.
Qed.

(** ** C1: the three branches and the intersection test *)

(** C1.  For a valid candidate [s1, e1) and a valid stored booking
    [s2, e2), the three-branch disjunction of [checkBookingConflict] holds
    exactly when [s1 < e2] and [s2 < e1], the intersection test of the
    specification; so it equals the one-branch test of the admin route, and
    the two [where] clauses select the same rows. *)
Theorem C1_three_branches_iff_intersection :
  forall (s1 e1 s2 e2 : Date) (b : Booking.t) (id vehicleId : string),
    s1 < e1 -> s2 < e2 ->
    Booking.startTime b = s2 -> Booking.endTime b = e2 ->
    truthy id = true ->
    (conflictOR s1 e1 s2 e2 = true <-> s1 < e2 /\ s2 < e1)
    /\ conflictOR s1 e1 s2 e2 = intersects s1 e1 s2 e2
    /\ conflictOR s1 e1 s2 e2 = adminOR s1 e1 s2 e2
    /\ conflictWhere vehicleId s1 e1 (Some id) b
       = adminConflictWhere id vehicleId s1 e1 b.
Proof.
  intros s1 e1 s2 e2 b id vehicleId H1 H2 Hs He Hid.
  split; [|split; [|split]].
  - rewrite (conflictOR_intersects _ _ _ _ H1 H2). apply intersects_true.
  - apply conflictOR_intersects; assumption.
  - rewrite adminOR_intersects. apply conflictOR_intersects; assumption.
  - apply where_clauses_agree; try assumption.
    unfold validRow. rewrite Hs, He. exact H2.
Qed.

Lemma C1_witness :
  (conflictOR 9 11 8 10 = true <-> 9 < 10 /\ 8 < 11)
  /\ conflictOR 9 11 8 10 = intersects 9 11 8 10
  /\ conflictOR 9 11 8 10 = adminOR 9 11 8 10
  /\ conflictWhere "v1" 9 11 (Some "b2")
       (Booking.mk "b1" "u1" "v1" 8 10 None None)
     = adminConflictWhere "b2" "v1" 9 11
         (Booking.mk "b1" "u1" "v1" 8 10 None None).
Proof.
  apply (C1_three_branches_iff_intersection 9 11 8 10
           (Booking.mk "b1" "u1" "v1" 8 10 None None) "b2" "v1");
    reflexivity.
Defined.

(** ** C2: back-to-back bookings *)

(** C2 (as amended).  A valid candidate [s1, e1) that begins where a stored
    booking with [startTime < endTime] ends, or ends where it begins, does
    not meet the query on that row: the row is never the conflicting
    booking, and alone on its vehicle it gives no conflict. *)
Theorem C2_back_to_back_valid_row :
  forall (b : Booking.t) (vehicleId : string) (s1 e1 : Date)
         (excludeBookingId : option string) (db : Db),
    s1 < e1 -> validRow b ->
    e1 = Booking.startTime b \/ s1 = Booking.endTime b ->
    conflictWhere vehicleId s1 e1 excludeBookingId b = false
    /\ prisma.booking_findFirst db
         (conflictWhere vehicleId s1 e1 excludeBookingId) <> Some b
    /\ checkBookingConflict (mkDb [b] (vehicles db)) vehicleId s1 e1
         excludeBookingId = false.
Proof.
  intros b vehicleId s1 e1 excl db H1 Hb Hadj.
  assert (Hor : conflictOR s1 e1 (Booking.startTime b) (Booking.endTime b)
                = false).
  { unfold validRow in Hb. unfold conflictOR. destruct Hadj; cmp_cases. }
  assert (Hw : conflictWhere vehicleId s1 e1 excl b = false).
  { unfold conflictWhere. rewrite Hor. apply andb_false_r. }
  split; [exact Hw|split].
  - unfold prisma.booking_findFirst. intros Hfind.
    apply find_some in Hfind. destruct Hfind as [_ Hfind].
    rewrite Hw in Hfind. discriminate.
  - unfold checkBookingConflict, prisma.booking_findFirst. simpl.
    rewrite Hw. reflexivity.
Qed.

Lemma C2_witness :
  conflictWhere "v1" 20 30 None (Ex.row "b1" 10 20) = false
  /\ prisma.booking_findFirst Ex.db2 (conflictWhere "v1" 20 30 None)
     <> Some (Ex.row "b1" 10 20)
  /\ checkBookingConflict (mkDb [Ex.row "b1" 10 20] (vehicles Ex.db2))
       "v1" 20 30 None = false.
Proof.
  apply (C2_back_to_back_valid_row (Ex.row "b1" 10 20) "v1" 20 30 None Ex.db2).
  - reflexivity.
  - reflexivity.
  - right. reflexivity.
Defined.

(** C2 fails on a stored booking of length zero.  The admin update turns
    the booking [10, 20) into [30, 30); the valid candidate [20, 30) ends
    where that row begins and [30, 40) begins where it ends, and both are
    rejected with [Conflict] by the third branch of the query. *)
Lemma C2_counterexample_zero_length_row :
  admin_route (Some Ex.admin) (admin_put_bookings_id "b1" (Ex.times 30 30))
    Ex.db0
  = (mkDb [Ex.row "b1" 30 30] [Ex.van; Ex.truck],
     Res.mk 200 (Res.bookingUpdated (Ex.row "b1" 30 30)))
  /\ conflictWhere "v1" 20 30 None (Ex.row "b1" 30 30) = true
  /\ conflictWhere "v1" 30 40 None (Ex.row "b1" 30 30) = true
  /\ rejection (post_bookings (mkDb [Ex.row "b1" 30 30] [Ex.van; Ex.truck])
                  0 Ex.bob "b2" (Body.mk "v1" 20 30 None None))
     = Some Conflict
  /\ rejection (post_bookings (mkDb [Ex.row "b1" 30 30] [Ex.van; Ex.truck])
                  0 Ex.bob "b2" (Body.mk "v1" 30 40 None None))
     = Some Conflict.
Proof. repeat split. Qed.

(** ** C8: symmetry *)

(** C8.  The decision of [checkBookingConflict] is the same whichever of
    two intervals is the candidate and whichever the stored booking.  Each
    of the two is a candidate on one side of the equation, and a candidate
    reaches [checkBookingConflict] only with [start < end], both routes
    throwing on [end <= start] first; the symmetry is proved for every
    pair with [start <= end]. *)
Theorem C8_conflicts_symmetric :
  forall A B : Date * Date,
    fst A <= snd A -> fst B <= snd B ->
    conflicts A B = conflicts B A.
Proof.
  intros [s1 e1] [s2 e2] HA HB. simpl in HA, HB.
  rewrite !conflicts_OR. unfold conflictOR. simpl. cmp_cases.
Qed.

Lemma C8_witness : conflicts (9, 11) (8, 10) = conflicts (8, 10) (9, 11).
Proof.
  apply (C8_conflicts_symmetric (9, 11) (8, 10)); simpl; lia.
Defined.

(** ** The order of the checks in the booking routes *)

(** Unfolds a handler of [bookings.ts] down to its tests. *)
Ltac run_handler :=
  unfold post_bookings, put_bookings_id, throwIf, orThrow, bind, rejection.

(** [POST /api/bookings] as a decision list: the first test that fails
    decides. *)
Lemma post_bookings_cases (db : Db) (now : Date) (user : User.t)
    (newId : string) (body : Body.t) :
  post_bookings db now user newId body =
  if Body.endTime body <=? Body.startTime body then
    Throw (mkAppError InvalidInterval "End time must be after start time" 400)
  else if Body.startTime body <? now then
    Throw (mkAppError PastBooking "Cannot create bookings in the past" 400)
  else
    match prisma.vehicle_findUnique db (Body.vehicleId body) with
    | None => Throw (mkAppError VehicleNotFound "Vehicle not found" 404)
    | Some _ =>
        if checkBookingConflict db (Body.vehicleId body)
             (Body.startTime body) (Body.endTime body) None
        then
          Throw (mkAppError Conflict
                   "This time slot is already booked for this vehicle. Please choose a different time."
                   409)
        else
          let booking :=
            Booking.mk newId (User.id user) (Body.vehicleId body)
              (Body.startTime body) (Body.endTime body)
              (orNull (Body.title body)) (orNull (Body.description body)) in
          Ok (prisma.booking_create db booking, booking)
    end.
Proof.
  run_handler.
  destruct (Body.endTime body <=? Body.startTime body); [reflexivity|].
  destruct (Body.startTime body <? now); [reflexivity|].
  destruct (prisma.vehicle_findUnique db (Body.vehicleId body));
    [|reflexivity].
  destruct (checkBookingConflict _ _ _ _ _); reflexivity.
Qed.

(** [PUT /api/bookings/:id] as a decision list. *)
Lemma put_bookings_id_cases (db : Db) (now : Date) (user : User.t)
    (id : string) (body : Body.t) :
  put_bookings_id db now user id body =
  match prisma.booking_findUnique db id with
  | None => Throw (mkAppError BookingNotFound "Booking not found" 404)
  | Some existingBooking =>
      if negb (String.eqb (Booking.userId existingBooking) (User.id user))
      then
        Throw (mkAppError Forbidden "You can only edit your own bookings" 403)
      else if Body.endTime body <=? Body.startTime body then
        Throw (mkAppError InvalidInterval
                 "End time must be after start time" 400)
      else if Body.startTime body <? now then
        Throw (mkAppError PastBooking
                 "Cannot set booking time to the past" 400)
      else
        match prisma.vehicle_findUnique db (Body.vehicleId body) with
        | None => Throw (mkAppError VehicleNotFound "Vehicle not found" 404)
        | Some _ =>
            if checkBookingConflict db (Body.vehicleId body)
                 (Body.startTime body) (Body.endTime body) (Some id)
            then
              Throw (mkAppError Conflict
                       "This time slot conflicts with another booking. Please choose a different time."
                       409)
            else
              Ok (prisma.booking_update db id (put_data body),
                  put_data body existingBooking)
        end
  end.
Proof.
  run_handler.
  destruct (prisma.booking_findUnique db id) as [existing|]; [|reflexivity].
  destruct (negb (String.eqb (Booking.userId existing) (User.id user)));
    [reflexivity|].
  destruct (Body.endTime body <=? Body.startTime body); [reflexivity|].
  destruct (Body.startTime body <? now); [reflexivity|].
  destruct (prisma.vehicle_findUnique db (Body.vehicleId body));
    [|reflexivity].
  destruct (checkBookingConflict _ _ _ _ _); reflexivity.
Qed.

Lemma eqb_userId_neq (b : Booking.t) (user : User.t) :
  Booking.userId b <> User.id user ->
  negb (String.eqb (Booking.userId b) (User.id user)) = true.
Proof.
  intros Hne. apply negb_true_iff. apply String.eqb_neq. exact Hne.
Qed.

(** ** C3: the ownership gate comes first *)

(** C3.  An update of an existing booking by a user who is neither its
    owner nor an administrator is rejected with [Forbidden] (403) whatever
    the body holds, inverted interval included: the user route throws at
    its ownership check, before any test on the instants, and the admin
    route answers 403 in [requireAdmin] and leaves the database alone. *)
Theorem C3_forbidden_before_temporal_checks :
  forall (db : Db) (now : Date) (user : User.t) (id : string)
         (existingBooking : Booking.t) (body : Body.t) (abody : AdminBody.t),
    prisma.booking_findUnique db id = Some existingBooking ->
    Booking.userId existingBooking <> User.id user ->
    requireAdmin (Some user) = false ->
    put_bookings_id db now user id body
    = Throw (mkAppError Forbidden "You can only edit your own bookings" 403)
    /\ admin_route (Some user) (admin_put_bookings_id id abody) db
       = (db, Res.mk 403 (Res.error "Admin access required")).
Proof.
  intros db now user id existing body abody Hfind Hown Hadm. split.
  - rewrite put_bookings_id_cases, Hfind, (eqb_userId_neq _ _ Hown).
    reflexivity.
  - unfold admin_route. rewrite Hadm. reflexivity.
Qed.

Lemma C3_witness :
  put_bookings_id Ex.db0 100 Ex.bob "b1" (Body.mk "v9" 20 10 None None)
  = Throw (mkAppError Forbidden "You can only edit your own bookings" 403)
  /\ admin_route (Some Ex.bob)
       (admin_put_bookings_id "b1"
          (AdminBody.mk (Some "v9") (Some 20) (Some 10) None None))
       Ex.db0
     = (Ex.db0, Res.mk 403 (Res.error "Admin access required")).
Proof.
  apply (C3_forbidden_before_temporal_checks Ex.db0 100 Ex.bob "b1"
           (Ex.row "b1" 10 20)).
  - reflexivity.
  - discriminate.
  - reflexivity.
Defined.

(** ** C4: the order of the checks of a creation *)

(** C4.  [POST /api/bookings] tests the interval, then the past, then the
    vehicle, then the overlap, and throws at the first test that fails:
    [end <= start] gives [InvalidInterval] whatever the rest; otherwise
    [start < now] gives [PastBooking]; otherwise a missing vehicle gives
    [VehicleNotFound]; a [Conflict] is thrown only when the three earlier
    tests have passed, and then [checkBookingConflict] alone decides. *)
Theorem C4_create_validation_order :
  forall (db : Db) (now : Date) (user : User.t) (newId : string)
         (body : Body.t),
    let start := Body.startTime body in
    let end_ := Body.endTime body in
    let r := post_bookings db now user newId body in
    (end_ <= start -> rejection r = Some InvalidInterval)
    /\ (start < end_ -> start < now -> rejection r = Some PastBooking)
    /\ (start < end_ -> now <= start ->
        prisma.vehicle_findUnique db (Body.vehicleId body) = None ->
        rejection r = Some VehicleNotFound)
    /\ (rejection r = Some Conflict ->
        start < end_ /\ now <= start
        /\ prisma.vehicle_findUnique db (Body.vehicleId body) <> None
        /\ checkBookingConflict db (Body.vehicleId body) start end_ None
           = true)
    /\ (start < end_ -> now <= start ->
        prisma.vehicle_findUnique db (Body.vehicleId body) <> None ->
        rejection r
        = if checkBookingConflict db (Body.vehicleId body) start end_ None
          then Some Conflict else None).
Proof.
  intros db now user newId body start end_ r.
  subst r start end_. rewrite post_bookings_cases.
  destruct (Z.leb_spec (Body.endTime body) (Body.startTime body)) as [Hi|Hi];
    [simpl; repeat split; intros; try reflexivity; try lia; discriminate|].
  destruct (Z.ltb_spec (Body.startTime body) now) as [Hp|Hp];
    [simpl; repeat split; intros; try reflexivity; try lia; discriminate|].
  destruct (prisma.vehicle_findUnique db (Body.vehicleId body)) as [v|];
    [|simpl; repeat split; intros; try reflexivity; try lia;
      try discriminate; congruence].
  destruct (checkBookingConflict _ _ _ _ _); simpl;
    repeat split; intros; try reflexivity; try lia; try discriminate.
Qed.

Lemma C4_witness :
  rejection (post_bookings Ex.db0 100 Ex.bob "b2"
               (Body.mk "v9" 20 10 None None)) = Some InvalidInterval
  /\ rejection (post_bookings Ex.db0 100 Ex.bob "b2"
                  (Body.mk "v9" 10 20 None None)) = Some PastBooking
  /\ rejection (post_bookings Ex.db0 0 Ex.bob "b2"
                  (Body.mk "v9" 10 20 None None)) = Some VehicleNotFound
  /\ rejection (post_bookings Ex.db0 0 Ex.bob "b2"
                  (Body.mk "v1" 15 25 None None)) = Some Conflict.
Proof.
  split; [|split; [|split]].
  - apply (C4_create_validation_order Ex.db0 100 Ex.bob "b2"
             (Body.mk "v9" 20 10 None None)).
    simpl. lia.
  - apply (C4_create_validation_order Ex.db0 100 Ex.bob "b2"
             (Body.mk "v9" 10 20 None None)); reflexivity.
  - apply (C4_create_validation_order Ex.db0 0 Ex.bob "b2"
             (Body.mk "v9" 10 20 None None));
      simpl; try reflexivity; lia.
  - pose proof (C4_create_validation_order Ex.db0 0 Ex.bob "b2"
                  (Body.mk "v1" 15 25 None None)) as H.
    simpl in H. destruct H as (_ & _ & _ & _ & H).
    apply H; [reflexivity | lia | discriminate].
Defined.

(** ** C6: the boundary of the past check *)

(** C6 (as amended).  The past check is [start < now], strict: a
    candidate with [start = now] is not rejected with [PastBooking], by
    creation or by update; a candidate with [end > start] and
    [start < now] is rejected with [PastBooking] by creation, and by the
    update of an existing booking when the caller is its owner. *)
Theorem C6_past_check_boundary :
  forall (db : Db) (now : Date) (user : User.t) (newId id : string)
         (existingBooking : Booking.t) (body : Body.t),
    let start := Body.startTime body in
    let end_ := Body.endTime body in
    (start = now ->
     rejection (post_bookings db now user newId body) <> Some PastBooking
     /\ rejection (put_bookings_id db now user id body) <> Some PastBooking)
    /\ (start < end_ -> start < now ->
        rejection (post_bookings db now user newId body) = Some PastBooking)
    /\ (prisma.booking_findUnique db id = Some existingBooking ->
        Booking.userId existingBooking = User.id user ->
        start < end_ -> start < now ->
        rejection (put_bookings_id db now user id body) = Some PastBooking).
Proof.
  intros db now user newId id existing body start end_. subst start end_.
  rewrite post_bookings_cases, put_bookings_id_cases.
  split; [|split].
  - intros Hnow.
    assert (Hp : (Body.startTime body <? now) = false)
      by (apply Z.ltb_ge; lia).
    rewrite Hp. split.
    + destruct (Body.endTime body <=? Body.startTime body);
        [discriminate|].
      destruct (prisma.vehicle_findUnique db (Body.vehicleId body));
        [|discriminate].
      destruct (checkBookingConflict _ _ _ _ _); discriminate.
    + destruct (prisma.booking_findUnique db id) as [b|]; [|discriminate].
      destruct (negb _); [discriminate|].
      destruct (Body.endTime body <=? Body.startTime body);
        [discriminate|].
      destruct (prisma.vehicle_findUnique db (Body.vehicleId body));
        [|discriminate].
      destruct (checkBookingConflict _ _ _ _ _); discriminate.
  - intros Hi Hp.
    apply Z.leb_gt in Hi. apply Z.ltb_lt in Hp. rewrite Hi, Hp.
    reflexivity.
  - intros Hfind Hown Hi Hp.
    apply Z.leb_gt in Hi. apply Z.ltb_lt in Hp.
    rewrite Hfind, Hown, String.eqb_refl, Hi, Hp. reflexivity.
Qed.

Lemma C6_witness :
  (rejection (post_bookings Ex.db0 10 Ex.alice "b2"
                (Body.mk "v1" 10 20 None None)) <> Some PastBooking
   /\ rejection (put_bookings_id Ex.db0 10 Ex.alice "b1"
                   (Body.mk "v1" 10 20 None None)) <> Some PastBooking)
  /\ rejection (post_bookings Ex.db0 10 Ex.alice "b2"
                  (Body.mk "v1" 9 20 None None)) = Some PastBooking
  /\ rejection (put_bookings_id Ex.db0 10 Ex.alice "b1"
                  (Body.mk "v1" 9 20 None None)) = Some PastBooking.
Proof.
  split; [|split].
  - apply (C6_past_check_boundary Ex.db0 10 Ex.alice "b2" "b1"
             (Ex.row "b1" 10 20) (Body.mk "v1" 10 20 None None)).
    reflexivity.
  - apply (C6_past_check_boundary Ex.db0 10 Ex.alice "b2" "b1"
             (Ex.row "b1" 10 20) (Body.mk "v1" 9 20 None None));
      reflexivity.
  - apply (C6_past_check_boundary Ex.db0 10 Ex.alice "b2" "b1"
             (Ex.row "b1" 10 20) (Body.mk "v1" 9 20 None None));
      reflexivity.
Defined.

(** C6 fails for an administrator who is not the owner.  With the clock
    at 100, the update of the booking [10, 20) of another user to [1, 2),
    a valid interval in the past, is answered [Forbidden] by the user
    route, and is committed with status 200 by the admin route; neither
    answers [PastBooking]. *)
Lemma C6_counterexample_administrator :
  requireAdmin (Some Ex.admin) = true
  /\ prisma.booking_findUnique Ex.db0 "b1" = Some (Ex.row "b1" 10 20)
  /\ put_bookings_id Ex.db0 100 Ex.admin "b1" (Body.mk "v1" 1 2 None None)
     = Throw (mkAppError Forbidden "You can only edit your own bookings" 403)
  /\ admin_route (Some Ex.admin)
       (admin_put_bookings_id "b1"
          (AdminBody.mk (Some "v1") (Some 1) (Some 2) None None))
       Ex.db0
     = (mkDb [Ex.row "b1" 1 2] [Ex.van; Ex.truck],
        Res.mk 200 (Res.bookingUpdated (Ex.row "b1" 1 2))).
Proof. repeat split. Qed.

(** ** C5: a booking does not conflict with itself *)

Lemma findFirst_existsb (db : Db) (f : Booking.t -> bool) :
  match prisma.booking_findFirst db f with
  | Some _ => true
  | None => false
  end = existsb f (bookings db).
Proof.
  unfold prisma.booking_findFirst.
  induction (bookings db) as [|b l IH]; simpl.
  - reflexivity.
  - destruct (f b); [reflexivity | exact IH].
Qed.

(** With a truthy [excludeBookingId], [checkBookingConflict] is the
    search for a conflicting row among the others. *)
Lemma checkBookingConflict_others (db : Db) (id vehicleId : string)
    (startTime endTime : Date) :
  truthy id = true ->
  checkBookingConflict db vehicleId startTime endTime (Some id)
  = otherConflict db id vehicleId startTime endTime.
Proof.
  intros Hid. unfold checkBookingConflict, otherConflict.
  rewrite findFirst_existsb.
  induction (bookings db) as [|b l IH]; simpl.
  - reflexivity.
  - rewrite IH. f_equal. unfold conflictWhere.
    rewrite (idFilter_truthy _ _ Hid).
    destruct (String.eqb (Booking.vehicleId b) vehicleId),
      (String.eqb (Booking.id b) id); reflexivity.
Qed.

Lemma findUnique_id (db : Db) (id : string) (b : Booking.t) :
  prisma.booking_findUnique db id = Some b -> Booking.id b = id.
Proof.
  unfold prisma.booking_findUnique. intros Hfind.
  apply find_some in Hfind. destruct Hfind as [_ Heq].
  apply String.eqb_eq. exact Heq.
Qed.

(** C5 (as amended).  When the owner of a stored booking [X] sends an
    update with [X]'s own vehicle and interval, the interval being valid
    and not in the past and the vehicle existing, the query skips [X], and
    the update is admitted provided no other booking of the vehicle meets
    the query for that interval. *)
Theorem C5_self_exclusion_on_update :
  forall (db : Db) (now : Date) (user : User.t) (id : string)
         (X : Booking.t) (title description : option string),
    let body :=
      Body.mk (Booking.vehicleId X) (Booking.startTime X) (Booking.endTime X)
        title description in
    truthy id = true ->
    prisma.booking_findUnique db id = Some X ->
    Booking.userId X = User.id user ->
    Booking.startTime X < Booking.endTime X ->
    now <= Booking.startTime X ->
    prisma.vehicle_findUnique db (Booking.vehicleId X) <> None ->
    otherConflict db id (Booking.vehicleId X)
      (Booking.startTime X) (Booking.endTime X) = false ->
    conflictWhere (Booking.vehicleId X) (Booking.startTime X)
      (Booking.endTime X) (Some id) X = false
    /\ put_bookings_id db now user id body
       = Ok (prisma.booking_update db id (put_data body), put_data body X).
Proof.
  intros db now user id X title description body
    Hid Hfind Hown Hi Hp Hveh Hothers.
  split.
  - unfold conflictWhere. rewrite (idFilter_truthy _ _ Hid).
    rewrite (findUnique_id _ _ _ Hfind), !String.eqb_refl. reflexivity.
  - rewrite put_bookings_id_cases, Hfind, Hown, String.eqb_refl.
    subst body. simpl.
    apply Z.leb_gt in Hi. apply Z.ltb_ge in Hp. rewrite Hi, Hp.
    destruct (prisma.vehicle_findUnique db (Booking.vehicleId X));
      [|congruence].
    rewrite (checkBookingConflict_others _ _ _ _ _ Hid), Hothers.
    reflexivity.
Qed.

Lemma C5_witness :
  conflictWhere "v1" 10 20 (Some "b1") (Ex.row "b1" 10 20) = false
  /\ put_bookings_id Ex.db2 5 Ex.alice "b1" (Body.mk "v1" 10 20 None None)
     = Ok (prisma.booking_update Ex.db2 "b1"
             (put_data (Body.mk "v1" 10 20 None None)),
           put_data (Body.mk "v1" 10 20 None None) (Ex.row "b1" 10 20)).
Proof.
  apply (C5_self_exclusion_on_update Ex.db2 5 Ex.alice "b1"
           (Ex.row "b1" 10 20) None None);
    try reflexivity.
  - simpl. lia.
  - discriminate.
Defined.

(** C5 fails when another booking of the vehicle overlaps [X].  The admin
    update, sent with the two instants only, makes no conflict query and
    moves the booking [30, 40) onto [15, 25); the owner's update of
    [10, 20) with its own interval is then rejected with [Conflict]. *)
Lemma C5_counterexample_overlapping_neighbour :
  admin_route (Some Ex.admin) (admin_put_bookings_id "b2" (Ex.times 15 25))
    Ex.db2
  = (mkDb [Ex.row "b1" 10 20; Ex.row "b2" 15 25] [Ex.van; Ex.truck],
     Res.mk 200 (Res.bookingUpdated (Ex.row "b2" 15 25)))
  /\ prisma.booking_findUnique
       (mkDb [Ex.row "b1" 10 20; Ex.row "b2" 15 25] [Ex.van; Ex.truck]) "b1"
     = Some (Ex.row "b1" 10 20)
  /\ put_bookings_id
       (mkDb [Ex.row "b1" 10 20; Ex.row "b2" 15 25] [Ex.van; Ex.truck])
       5 Ex.alice "b1" (Body.mk "v1" 10 20 None None)
     = Throw (mkAppError Conflict
                "This time slot conflicts with another booking. Please choose a different time."
                409).
Proof. repeat split. Qed.

(** ** C7: what an update re-validates *)

Lemma find_none_false {A : Type} (f : A -> bool) (l : list A) (x : A) :
  find f l = None -> In x l -> f x = false.
Proof. intros Hfind Hin. exact (find_none f l Hfind x Hin). Qed.

(** No row found by [checkBookingConflict]: no other row of the vehicle
    meets one of the three branches. *)
Lemma checkBookingConflict_false (db : Db) (id vehicleId : string)
    (startTime endTime : Date) (b : Booking.t) :
  checkBookingConflict db vehicleId startTime endTime (Some id) = false ->
  In b (bookings db) -> Booking.id b <> id ->
  Booking.vehicleId b = vehicleId ->
  conflictOR startTime endTime (Booking.startTime b) (Booking.endTime b)
  = false.
Proof.
  unfold checkBookingConflict, prisma.booking_findFirst.
  intros Hc Hin Hid Hv.
  destruct (find _ (bookings db)) eqn:Hfind; [discriminate|].
  pose proof (find_none_false _ _ b Hfind Hin) as Hb.
  unfold conflictWhere, idFilter in Hb.
  apply String.eqb_neq in Hid. apply String.eqb_eq in Hv.
  rewrite Hv, Hid in Hb. destruct (truthy id); exact Hb.
Qed.

(** The user route commits an update only after the four tests. *)
Lemma put_bookings_id_revalidates (db : Db) (now : Date) (user : User.t)
    (id : string) (body : Body.t) (out : Db * Booking.t) :
  put_bookings_id db now user id body = Ok out ->
  Body.startTime body < Body.endTime body
  /\ now <= Body.startTime body
  /\ prisma.vehicle_findUnique db (Body.vehicleId body) <> None
  /\ checkBookingConflict db (Body.vehicleId body)
       (Body.startTime body) (Body.endTime body) (Some id) = false.
Proof.
  rewrite put_bookings_id_cases.
  destruct (prisma.booking_findUnique db id) as [b|]; [|discriminate].
  destruct (negb _); [discriminate|].
  destruct (Z.leb_spec (Body.endTime body) (Body.startTime body));
    [discriminate|].
  destruct (Z.ltb_spec (Body.startTime body) now); [discriminate|].
  destruct (prisma.vehicle_findUnique db (Body.vehicleId body));
    [|discriminate].
  destruct (checkBookingConflict _ _ _ _ _) eqn:Hc; [discriminate|].
  intros _. repeat split; try assumption. discriminate.
Qed.

(** The admin route commits (status 200) only when its conflict query
    found no row. *)
Lemma admin_put_200_no_conflict (db : Db) (id : string) (body : AdminBody.t) :
  Res.status (snd (admin_put_bookings_id id body db)) = 200 ->
  admin_conflict db id body = None.
Proof.
  unfold admin_put_bookings_id.
  destruct (admin_conflict db id body); [discriminate | reflexivity].
Qed.

(** The admin route commits (status 200) only when the row exists and the
    vehicle of the rewritten row exists. *)
Lemma admin_put_200_vehicle (db : Db) (id : string) (body : AdminBody.t) :
  Res.status (snd (admin_put_bookings_id id body db)) = 200 ->
  exists x,
    prisma.booking_findUnique db id = Some x
    /\ prisma.vehicle_findUnique db
         (Booking.vehicleId (admin_put_data body x)) <> None.
Proof.
  unfold admin_put_bookings_id.
  destruct (admin_conflict db id body); [discriminate|].
  unfold prisma.booking_update_or_throw.
  destruct (prisma.booking_findUnique db id) as [x|]; [|discriminate].
  destruct (prisma.vehicle_findUnique db _) eqn:Hveh; [|discriminate].
  intros _. exists x. split; [reflexivity|]. rewrite Hveh. discriminate.
Qed.

(** C7 (as amended).  An update that the user route commits has passed the
    four tests: [end > start], [start >= now], an existing vehicle, and no
    other booking of the vehicle meeting the conflict query.  An update
    that the admin route commits leaves the booking on an existing
    vehicle, the one of the body when the body names one; and when the
    body carries [vehicleId], [startTime] and [endTime], it has passed the
    overlap test against the other bookings of that vehicle. *)
Theorem C7_revalidation_on_update :
  forall (db : Db) (now : Date) (user : User.t) (id : string)
         (body : Body.t) (out : Db * Booking.t)
         (abody : AdminBody.t) (vehicleId : string) (startTime endTime : Date),
    (put_bookings_id db now user id body = Ok out ->
     Body.startTime body < Body.endTime body
     /\ now <= Body.startTime body
     /\ prisma.vehicle_findUnique db (Body.vehicleId body) <> None
     /\ forall b, In b (bookings db) -> Booking.id b <> id ->
          Booking.vehicleId b = Body.vehicleId body ->
          conflictOR (Body.startTime body) (Body.endTime body)
            (Booking.startTime b) (Booking.endTime b) = false)
    /\ (Res.status (snd (admin_put_bookings_id id abody db)) = 200 ->
        (exists x,
            prisma.booking_findUnique db id = Some x
            /\ prisma.vehicle_findUnique db
                 (Booking.vehicleId (admin_put_data abody x)) <> None)
        /\ (truthyId (AdminBody.vehicleId abody) = Some vehicleId ->
            prisma.vehicle_findUnique db vehicleId <> None))
    /\ (truthyId (AdminBody.vehicleId abody) = Some vehicleId ->
        AdminBody.startTime abody = Some startTime ->
        AdminBody.endTime abody = Some endTime ->
        Res.status (snd (admin_put_bookings_id id abody db)) = 200 ->
        forall b, In b (bookings db) -> Booking.id b <> id ->
          Booking.vehicleId b = vehicleId ->
          adminOR startTime endTime (Booking.startTime b) (Booking.endTime b)
          = false).
Proof.
  intros db now user id body out abody vehicleId startTime endTime.
  split; [|split].
  - intros Hok.
    destruct (put_bookings_id_revalidates _ _ _ _ _ _ Hok)
      as (Hi & Hp & Hv & Hc).
    repeat split; try assumption.
    intros b Hin Hid Hveh.
    exact (checkBookingConflict_false _ _ _ _ _ b Hc Hin Hid Hveh).
  - intros H200.
    destruct (admin_put_200_vehicle _ _ _ H200) as (x & Hx & Hveh).
    split; [exists x; split; assumption|].
    intros Hv. unfold admin_put_data in Hveh. simpl in Hveh.
    rewrite Hv in Hveh. exact Hveh.
  - intros Hv Hs He H200 b Hin Hid Hveh.
    apply admin_put_200_no_conflict in H200.
    unfold admin_conflict in H200. rewrite Hv, Hs, He in H200.
    pose proof (find_none_false _ _ b H200 Hin) as Hb.
    unfold adminConflictWhere in Hb.
    apply String.eqb_neq in Hid. apply String.eqb_eq in Hveh.
    rewrite Hid, Hveh in Hb. exact Hb.
Qed.

Lemma C7_witness :
  (20 < 30 /\ 0 <= 20
   /\ prisma.vehicle_findUnique Ex.db2 "v1" <> None
   /\ forall b, In b (bookings Ex.db2) -> Booking.id b <> "b1" ->
        Booking.vehicleId b = "v1" ->
        conflictOR 20 30 (Booking.startTime b) (Booking.endTime b) = false)
  /\ ((exists x,
         prisma.booking_findUnique Ex.db2 "b2" = Some x
         /\ prisma.vehicle_findUnique Ex.db2
              (Booking.vehicleId
                 (admin_put_data
                    (AdminBody.mk (Some "v1") (Some 20) (Some 30) None None)
                    x)) <> None)
      /\ prisma.vehicle_findUnique Ex.db2 "v1" <> None)
  /\ (forall b, In b (bookings Ex.db2) -> Booking.id b <> "b2" ->
        Booking.vehicleId b = "v1" ->
        adminOR 20 30 (Booking.startTime b) (Booking.endTime b) = false).
Proof.
  split; [|split].
  - apply (C7_revalidation_on_update Ex.db2 0 Ex.alice "b1"
             (Body.mk "v1" 20 30 None None)
             (prisma.booking_update Ex.db2 "b1"
                (put_data (Body.mk "v1" 20 30 None None)),
              put_data (Body.mk "v1" 20 30 None None) (Ex.row "b1" 10 20))
             (AdminBody.mk None None None None None) "v1" 0 0).
    reflexivity.
  - pose proof (C7_revalidation_on_update Ex.db2 0 Ex.alice "b2"
                  (Body.mk "v1" 20 30 None None)
                  (Ex.db2, Ex.row "b2" 30 40)
                  (AdminBody.mk (Some "v1") (Some 20) (Some 30) None None)
                  "v1" 20 30) as H.
    destruct H as (_ & H & _).
    destruct (H eq_refl) as [Hx Hv]. split; [exact Hx|].
    apply Hv. reflexivity.
  - apply (C7_revalidation_on_update Ex.db2 0 Ex.alice "b2"
             (Body.mk "v1" 20 30 None None)
             (Ex.db2, Ex.row "b2" 30 40)
             (AdminBody.mk (Some "v1") (Some 20) (Some 30) None None)
             "v1" 20 30);
      reflexivity.
Defined.

(** C7 fails for the admin update.  From the one booking [10, 20): the
    body with [startTime = 20] and [endTime = 10], which the user route
    rejects with [InvalidInterval], is committed with status 200 and leaves
    a stored row with [end < start]; the body [1, 2), which the user route
    rejects with [PastBooking] when the clock reads 100, is committed as
    well, the handler reading no clock.  From the bookings [10, 20) and
    [30, 40): a body with the two instants only, which the user route
    rejects with [Conflict], is committed without any conflict query and
    leaves two overlapping rows. *)
Lemma C7_counterexample_admin_override :
  rejection (put_bookings_id Ex.db0 0 Ex.alice "b1"
               (Body.mk "v1" 20 10 None None)) = Some InvalidInterval
  /\ admin_route (Some Ex.admin)
       (admin_put_bookings_id "b1"
          (AdminBody.mk (Some "v1") (Some 20) (Some 10) None None))
       Ex.db0
     = (mkDb [Ex.row "b1" 20 10] [Ex.van; Ex.truck],
        Res.mk 200 (Res.bookingUpdated (Ex.row "b1" 20 10)))
  /\ rejection (put_bookings_id Ex.db0 100 Ex.alice "b1"
                  (Body.mk "v1" 1 2 None None)) = Some PastBooking
  /\ admin_route (Some Ex.admin)
       (admin_put_bookings_id "b1"
          (AdminBody.mk (Some "v1") (Some 1) (Some 2) None None))
       Ex.db0
     = (mkDb [Ex.row "b1" 1 2] [Ex.van; Ex.truck],
        Res.mk 200 (Res.bookingUpdated (Ex.row "b1" 1 2)))
  /\ rejection (put_bookings_id Ex.db2 0 Ex.alice "b2"
                  (Body.mk "v1" 15 25 None None)) = Some Conflict
  /\ admin_route (Some Ex.admin)
       (admin_put_bookings_id "b2" (Ex.times 15 25)) Ex.db2
     = (mkDb [Ex.row "b1" 10 20; Ex.row "b2" 15 25] [Ex.van; Ex.truck],
        Res.mk 200 (Res.bookingUpdated (Ex.row "b2" 15 25))).
Proof. repeat split. Qed.

(** ** C9: deleting a vehicle *)

Lemma vehicle_findUnique_filter_same (vs : list Vehicle.t) (id : string) :
  find (fun v => String.eqb (Vehicle.id v) id)
       (filter (fun v => negb (String.eqb (Vehicle.id v) id)) vs) = None.
Proof.
  induction vs as [|v vs IH]; simpl.
  - reflexivity.
  - destruct (String.eqb (Vehicle.id v) id) eqn:Hv; simpl.
    + exact IH.
    + rewrite Hv. exact IH.
Qed.

Lemma vehicle_findUnique_filter_other (vs : list Vehicle.t)
    (id other : string) :
  other <> id ->
  find (fun v => String.eqb (Vehicle.id v) other)
       (filter (fun v => negb (String.eqb (Vehicle.id v) id)) vs)
  = find (fun v => String.eqb (Vehicle.id v) other) vs.
Proof.
  intros Hne. induction vs as [|v vs IH]; simpl.
  - reflexivity.
  - destruct (String.eqb (Vehicle.id v) id) eqn:Hv; simpl.
    + apply String.eqb_eq in Hv.
      destruct (String.eqb (Vehicle.id v) other) eqn:Ho.
      * apply String.eqb_eq in Ho. congruence.
      * exact IH.
    + rewrite IH. reflexivity.
Qed.

(** C9.  [DELETE /vehicles/:id] counts the bookings of the vehicle.  With
    one booking or more the answer is the error 400 and the database is
    unchanged; behind [requireAdmin] the vehicle is then deleted for no
    caller.  With no booking the existing vehicle is deleted with status
    200, the bookings and the other vehicles staying as they were.  For an
    existing vehicle the status is a function of the count alone. *)
Theorem C9_vehicle_delete_decided_by_count :
  forall (db : Db) (id : string),
    let bookingCount :=
      prisma.booking_count db
        (fun b => String.eqb (Booking.vehicleId b) id) in
    ((0 < bookingCount)%nat ->
     admin_delete_vehicles_id id db
     = (db, Res.mk 400 (Res.cannotDeleteVehicle bookingCount))
     /\ forall user,
          fst (admin_route user (admin_delete_vehicles_id id) db) = db
          /\ Res.status (snd (admin_route user (admin_delete_vehicles_id id)
                                db)) <> 200)
    /\ (bookingCount = 0%nat ->
        prisma.vehicle_findUnique db id <> None ->
        exists db',
          admin_delete_vehicles_id id db
          = (db', Res.mk 200 (Res.message "Vehicle deleted successfully"))
          /\ bookings db' = bookings db
          /\ prisma.vehicle_findUnique db' id = None
          /\ forall other, other <> id ->
               prisma.vehicle_findUnique db' other
               = prisma.vehicle_findUnique db other)
    /\ (prisma.vehicle_findUnique db id <> None ->
        Res.status (snd (admin_delete_vehicles_id id db))
        = if (0 <? bookingCount)%nat then 400 else 200).
Proof.
  intros db id bookingCount. unfold admin_delete_vehicles_id.
  fold bookingCount. split; [|split].
  - intros Hpos. apply Nat.ltb_lt in Hpos. rewrite Hpos.
    split; [reflexivity|].
    intros user. unfold admin_route, admin_delete_vehicles_id.
    fold bookingCount. rewrite Hpos.
    destruct (requireAdmin user); simpl; split;
      try reflexivity; discriminate.
  - intros Hzero Hveh. rewrite Hzero. simpl.
    unfold prisma.vehicle_delete.
    destruct (prisma.vehicle_findUnique db id) as [v|]; [|congruence].
    eexists. split; [reflexivity|]. split; [reflexivity|]. split.
    + apply vehicle_findUnique_filter_same.
    + intros other Hne. apply vehicle_findUnique_filter_other. exact Hne.
  - intros Hveh. destruct (0 <? bookingCount)%nat; [reflexivity|].
    unfold prisma.vehicle_delete.
    destruct (prisma.vehicle_findUnique db id); [reflexivity|congruence].
Qed.

Lemma C9_witness :
  (admin_delete_vehicles_id "v1" Ex.db0
   = (Ex.db0, Res.mk 400 (Res.cannotDeleteVehicle 1))
   /\ forall user,
        fst (admin_route user (admin_delete_vehicles_id "v1") Ex.db0) = Ex.db0
        /\ Res.status (snd (admin_route user (admin_delete_vehicles_id "v1")
                              Ex.db0)) <> 200)
  /\ (exists db',
        admin_delete_vehicles_id "v2" Ex.db0
        = (db', Res.mk 200 (Res.message "Vehicle deleted successfully"))
        /\ bookings db' = bookings Ex.db0
        /\ prisma.vehicle_findUnique db' "v2" = None
        /\ forall other, other <> "v2" ->
             prisma.vehicle_findUnique db' other
             = prisma.vehicle_findUnique Ex.db0 other)
  /\ Res.status (snd (admin_delete_vehicles_id "v1" Ex.db0)) = 400.
Proof.
  split; [|split].
  - apply (C9_vehicle_delete_decided_by_count Ex.db0 "v1").
    vm_compute. lia.
  - apply (C9_vehicle_delete_decided_by_count Ex.db0 "v2").
    + reflexivity.
    + discriminate.
  - apply (C9_vehicle_delete_decided_by_count Ex.db0 "v1"). discriminate.
Defined.

(** ** C10: the [isActive] flag *)

Lemma vehicle_findUnique_setActive (f : Vehicle.t -> bool) (db : Db)
    (id : string) :
  prisma.vehicle_findUnique (setActive f db) id
  = option_map (fun v => Vehicle.mk (Vehicle.id v) (Vehicle.name v) (f v))
      (prisma.vehicle_findUnique db id).
Proof.
  unfold prisma.vehicle_findUnique, setActive. simpl.
  induction (vehicles db) as [|v vs IH]; simpl.
  - reflexivity.
  - destruct (String.eqb (Vehicle.id v) id); [reflexivity | exact IH].
Qed.

(** C10.  No booking route reads [isActive].  Rewriting the flag of every
    vehicle in any way changes neither the outcome of a creation nor that
    of an update (the flags apart, the resulting database is the same); and
    a candidate on a vehicle that exists with [isActive = false] is
    admitted by creation when the interval is valid, not in the past and
    free of conflict. *)
Theorem C10_isActive_not_consulted :
  forall (f : Vehicle.t -> bool) (db : Db) (now : Date) (user : User.t)
         (newId id : string) (body : Body.t),
    post_bookings (setActive f db) now user newId body
    = mapDb (setActive f) (post_bookings db now user newId body)
    /\ put_bookings_id (setActive f db) now user id body
       = mapDb (setActive f) (put_bookings_id db now user id body)
    /\ (forall v,
          prisma.vehicle_findUnique db (Body.vehicleId body) = Some v ->
          Vehicle.isActive v = false ->
          Body.startTime body < Body.endTime body ->
          now <= Body.startTime body ->
          checkBookingConflict db (Body.vehicleId body)
            (Body.startTime body) (Body.endTime body) None = false ->
          rejection (post_bookings db now user newId body) = None).
Proof.
  intros f db now user newId id body. split; [|split].
  - rewrite !post_bookings_cases, vehicle_findUnique_setActive.
    destruct (Body.endTime body <=? Body.startTime body); [reflexivity|].
    destruct (Body.startTime body <? now); [reflexivity|].
    destruct (prisma.vehicle_findUnique db (Body.vehicleId body));
      [|reflexivity].
    simpl. change (checkBookingConflict (setActive f db))
      with (checkBookingConflict db).
    destruct (checkBookingConflict _ _ _ _ _); reflexivity.
  - rewrite !put_bookings_id_cases, vehicle_findUnique_setActive.
    change (prisma.booking_findUnique (setActive f db) id)
      with (prisma.booking_findUnique db id).
    destruct (prisma.booking_findUnique db id) as [b|]; [|reflexivity].
    destruct (negb _); [reflexivity|].
    destruct (Body.endTime body <=? Body.startTime body); [reflexivity|].
    destruct (Body.startTime body <? now); [reflexivity|].
    destruct (prisma.vehicle_findUnique db (Body.vehicleId body));
      [|reflexivity].
    simpl. change (checkBookingConflict (setActive f db))
      with (checkBookingConflict db).
    destruct (checkBookingConflict _ _ _ _ _); reflexivity.
  - intros v Hv _ Hi Hp Hc. rewrite post_bookings_cases.
    apply Z.leb_gt in Hi. apply Z.ltb_ge in Hp.
    rewrite Hi, Hp, Hv, Hc. reflexivity.
Qed.

Lemma C10_witness :
  rejection (post_bookings Ex.db0 0 Ex.bob "b2"
               (Body.mk "v2" 10 20 None None)) = None.
Proof.
  pose proof (C10_isActive_not_consulted (fun _ => true) Ex.db0 0 Ex.bob
                "b2" "b1" (Body.mk "v2" 10 20 None None)) as H.
  destruct H as (_ & _ & H).
  apply (H Ex.truck); try reflexivity. simpl. lia.
Defined.

(** ** Sorting and filtering *)

Section SortBy.

Context {A : Type}.
Variable le : A -> A -> bool.

Lemma insertBy_perm (x : A) (l : list A) :
  Permutation (insertBy le x l) (x :: l).
Proof.
  induction l as [|y l IH]; simpl.
  - apply Permutation_refl.
  - destruct (le x y).
    + apply Permutation_refl.
    + apply Permutation_trans with (y :: x :: l).
      * apply perm_skip. exact IH.
      * apply perm_swap.
Qed.

Lemma sortBy_perm (l : list A) : Permutation (sortBy le l) l.
Proof.
  induction l as [|x l IH]; simpl.
  - apply perm_nil.
  - apply Permutation_trans with (x :: sortBy le l).
    + apply insertBy_perm.
    + apply perm_skip. exact IH.
Qed.

Lemma sortBy_In (l : list A) (x : A) : In x (sortBy le l) <-> In x l.
Proof.
  split; apply Permutation_in;
    [apply sortBy_perm | apply Permutation_sym, sortBy_perm].
Qed.

Hypothesis le_total : forall a b, le a b = true \/ le b a = true.
Hypothesis le_trans :
  forall a b c, le a b = true -> le b c = true -> le a c = true.

Let R (a b : A) : Prop := le a b = true.

Lemma insertBy_sorted (x : A) (l : list A) :
  StronglySorted R l -> StronglySorted R (insertBy le x l).
Proof.
  intros Hl. induction Hl as [|y l Hl IH Hy]; simpl.
  - constructor; constructor.
  - destruct (le x y) eqn:Hxy.
    + constructor.
      * constructor; assumption.
      * constructor; [exact Hxy|].
        apply Forall_impl with (P := R y); [|exact Hy].
        intros z Hz. exact (le_trans _ _ _ Hxy Hz).
    + constructor; [exact IH|].
      apply Forall_forall. intros z Hz.
      apply (Permutation_in _ (insertBy_perm x l)) in Hz.
      destruct Hz as [Hz|Hz].
      * subst z. destruct (le_total x y) as [H|H]; [congruence | exact H].
      * revert z Hz. apply Forall_forall. exact Hy.
Qed.

Lemma sortBy_sorted (l : list A) : StronglySorted R (sortBy le l).
Proof.
  induction l as [|x l IH]; simpl.
  - constructor.
  - apply insertBy_sorted. exact IH.
Qed.

End SortBy.

Lemma StronglySorted_filter {A : Type} (R : A -> A -> Prop) (p : A -> bool)
    (l : list A) :
  StronglySorted R l -> StronglySorted R (filter p l).
Proof.
  intros Hl. induction Hl as [|x l Hl IH Hx]; simpl.
  - constructor.
  - destruct (p x); [|exact IH].
    constructor; [exact IH|].
    apply Forall_forall. intros y Hy. apply filter_In in Hy.
    destruct Hy as [Hy _]. revert y Hy. apply Forall_forall. exact Hx.
Qed.

Lemma StronglySorted_snoc {A : Type} (R : A -> A -> Prop) (l : list A)
    (x : A) :
  StronglySorted R l -> Forall (fun y => R y x) l ->
  StronglySorted R (l ++ [x]).
Proof.
  intros Hl. induction Hl as [|y l Hl IH Hy]; simpl; intros Hall.
  - constructor; constructor.
  - inversion Hall as [|? ? Hyx Hrest]; subst.
    constructor; [apply IH; exact Hrest|].
    apply Forall_app. split; [exact Hy|]. constructor; [exact Hyx|constructor].
Qed.

Lemma StronglySorted_rev {A : Type} (R : A -> A -> Prop) (l : list A) :
  StronglySorted R l -> StronglySorted (fun a b => R b a) (rev l).
Proof.
  intros Hl. induction Hl as [|x l Hl IH Hx]; simpl.
  - constructor.
  - apply StronglySorted_snoc; [exact IH|].
    apply Forall_forall. intros y Hy. apply in_rev in Hy.
    revert y Hy. apply Forall_forall. exact Hx.
Qed.

Lemma filter_split_perm {A : Type} (p q : A -> bool) (l : list A) :
  (forall x, q x = negb (p x)) ->
  Permutation (filter p l ++ filter q l) l.
Proof.
  intros Hq. induction l as [|x l IH]; simpl.
  - apply perm_nil.
  - rewrite (Hq x). destruct (p x); simpl.
    + apply perm_skip. exact IH.
    + apply Permutation_sym. apply Permutation_cons_app.
      apply Permutation_sym. exact IH.
Qed.

Lemma StronglySorted_weaken {A : Type} (R S : A -> A -> Prop)
    (l : list A) :
  (forall a b, R a b -> S a b) -> StronglySorted R l -> StronglySorted S l.
Proof.
  intros HRS Hl. induction Hl as [|x l Hl IH Hx].
  - constructor.
  - constructor; [exact IH|].
    apply Forall_impl with (P := R x); [apply HRS | exact Hx].
Qed.

Lemma startTime_asc_sorted (l : list Booking.t) :
  StronglySorted (fun a b => Booking.startTime a <= Booking.startTime b)
    (sortBy startTime_asc l).
Proof.
  eapply StronglySorted_weaken;
    [|apply (sortBy_sorted startTime_asc)].
  - intros a b H. apply Z.leb_le. exact H.
  - intros a b. unfold startTime_asc.
    destruct (Z.leb_spec (Booking.startTime a) (Booking.startTime b));
      [left; reflexivity|right; apply Z.leb_le; lia].
  - unfold startTime_asc. intros a b c H1 H2.
    apply Z.leb_le in H1, H2. apply Z.leb_le. lia.
Qed.

Lemma startTime_desc_sorted (l : list Booking.t) :
  StronglySorted (fun a b => Booking.startTime b <= Booking.startTime a)
    (sortBy startTime_desc l).
Proof.
  eapply StronglySorted_weaken;
    [|apply (sortBy_sorted startTime_desc)].
  - intros a b H. apply Z.leb_le. exact H.
  - intros a b. unfold startTime_desc.
    destruct (Z.leb_spec (Booking.startTime b) (Booking.startTime a));
      [left; reflexivity|right; apply Z.leb_le; lia].
  - unfold startTime_desc. intros a b c H1 H2.
    apply Z.leb_le in H1, H2. apply Z.leb_le. lia.
Qed.

(** ** The lists of bookings *)

Lemma truthyId_match_eqb (o : option string) (x : string) :
  match truthyId o with
  | Some v => String.eqb x v
  | None => true
  end = true
  <-> forall v, truthyId o = Some v -> x = v.
Proof.
  destruct (truthyId o) as [v|]; split.
  - intros H w Hw. injection Hw as <-. apply String.eqb_eq. exact H.
  - intros H. apply String.eqb_eq. apply H. reflexivity.
  - intros _ w Hw. discriminate.
  - reflexivity.
Qed.

Lemma bound_match_geb (o : option Date) (x : Date) :
  match o with
  | Some s => x >=? s
  | None => true
  end = true
  <-> forall s, o = Some s -> s <= x.
Proof.
  destruct o as [s|]; split.
  - intros H w Hw. injection Hw as <-. rewrite Z.geb_leb in H.
    apply Z.leb_le. exact H.
  - intros H. rewrite Z.geb_leb. apply Z.leb_le. apply H. reflexivity.
  - intros _ w Hw. discriminate.
  - reflexivity.
Qed.

Lemma bound_match_leb (o : option Date) (x : Date) :
  match o with
  | Some e => x <=? e
  | None => true
  end = true
  <-> forall e, o = Some e -> x <= e.
Proof.
  destruct o as [e|]; split.
  - intros H w Hw. injection Hw as <-. apply Z.leb_le. exact H.
  - intros H. apply Z.leb_le. apply H. reflexivity.
  - intros _ w Hw. discriminate.
  - reflexivity.
Qed.

(** X1.  [GET /api/bookings] answers with exactly the stored bookings that
    meet every filter given: the vehicle, the user, [startTime >= start]
    and [endTime <= end], so a booking that lies only partly in the window
    is left out.  Each such booking comes once, and the list is in
    ascending order of [startTime]. *)
Theorem X1_get_bookings_window :
  forall (db : Db) (q : Query.t),
    (forall b,
        In b (get_bookings db q) <->
        In b (bookings db)
        /\ (forall v, truthyId (Query.vehicleId q) = Some v ->
                      Booking.vehicleId b = v)
        /\ (forall u, truthyId (Query.userId q) = Some u ->
                      Booking.userId b = u)
        /\ (forall s, Query.start q = Some s -> s <= Booking.startTime b)
        /\ (forall e, Query.end_ q = Some e -> Booking.endTime b <= e))
    /\ Permutation (get_bookings db q) (filter (listWhere q) (bookings db))
    /\ StronglySorted
         (fun a b => Booking.startTime a <= Booking.startTime b)
         (get_bookings db q).
Proof.
  intros db q. unfold get_bookings, booking_findMany. split; [|split].
  - intros b. rewrite sortBy_In, filter_In. unfold listWhere.
    rewrite !andb_true_iff, !truthyId_match_eqb, bound_match_geb,
      bound_match_leb.
    tauto.
  - apply sortBy_perm.
  - apply startTime_asc_sorted.
Qed.

(** X2.  The admin list applies both [startDate] and [endDate] to
    [startTime]: it answers with exactly the stored bookings of the user
    and vehicle asked for whose [startTime] lies between the two dates,
    whatever their [endTime]; [total] is the length of the list, which is
    in descending order of [startTime]. *)
Theorem X2_admin_get_bookings_window :
  forall (db : Db) (q : AdminQuery.t),
    exists l,
      admin_get_bookings q db
      = Reply.mk 200 (Reply.bookingList l (List.length l))
      /\ (forall b,
             In b l <->
             In b (bookings db)
             /\ (forall u, truthyId (AdminQuery.userId q) = Some u ->
                           Booking.userId b = u)
             /\ (forall v, truthyId (AdminQuery.vehicleId q) = Some v ->
                           Booking.vehicleId b = v)
             /\ (forall s, AdminQuery.startDate q = Some s ->
                           s <= Booking.startTime b)
             /\ (forall e, AdminQuery.endDate q = Some e ->
                           Booking.startTime b <= e))
      /\ StronglySorted
           (fun a b => Booking.startTime b <= Booking.startTime a) l.
Proof.
  intros db q. eexists. split; [reflexivity|]. split.
  - intros b. unfold booking_findMany.
    rewrite sortBy_In, filter_In. unfold adminListWhere.
    rewrite !andb_true_iff, !truthyId_match_eqb, bound_match_geb,
      bound_match_leb.
    tauto.
  - apply startTime_desc_sorted.
Qed.

Lemma filter_ltb_negb_geb (now : Date) (l : list Booking.t) :
  filter (fun b => Booking.endTime b <? now) l
  = filter (fun b => negb (Booking.endTime b >=? now)) l.
Proof.
  apply filter_ext. intros b. rewrite Z.geb_leb.
  destruct (Z.ltb_spec (Booking.endTime b) now),
    (Z.leb_spec now (Booking.endTime b)); simpl; try reflexivity; lia.
Qed.

(** X3.  [GET /api/bookings/my] answers with the caller's bookings only,
    and splits them in two: [upcoming] holds those with [endTime >= now],
    [past] those with [endTime < now], each booking of the caller in one of
    the two.  [upcoming] is in ascending order of [startTime], as the
    comment on [reverse()] says, and [past] in descending order. *)
Theorem X3_get_bookings_my_split :
  forall (db : Db) (now : Date) (user : User.t),
    let r := get_bookings_my db now user in
    (forall b, In b (My.bookings r) <->
               In b (bookings db) /\ Booking.userId b = User.id user)
    /\ (forall b, In b (My.upcoming r) <->
                  In b (My.bookings r) /\ now <= Booking.endTime b)
    /\ (forall b, In b (My.past r) <->
                  In b (My.bookings r) /\ Booking.endTime b < now)
    /\ Permutation (My.upcoming r ++ My.past r) (My.bookings r)
    /\ StronglySorted
         (fun a b => Booking.startTime a <= Booking.startTime b)
         (My.upcoming r)
    /\ StronglySorted
         (fun a b => Booking.startTime b <= Booking.startTime a)
         (My.past r).
Proof.
  intros db now user r. subst r. unfold get_bookings_my. simpl.
  set (mine := booking_findMany db _ startTime_desc).
  assert (Hsorted : StronglySorted
            (fun a b => Booking.startTime b <= Booking.startTime a) mine)
    by apply startTime_desc_sorted.
  split; [|split; [|split; [|split; [|split]]]].
  - intros b. unfold mine, booking_findMany.
    rewrite sortBy_In, filter_In, String.eqb_eq. reflexivity.
  - intros b. rewrite <- in_rev, filter_In, Z.geb_leb, Z.leb_le.
    reflexivity.
  - intros b. rewrite filter_In, Z.ltb_lt. reflexivity.
  - rewrite filter_ltb_negb_geb.
    apply Permutation_trans with
      (filter (fun b => Booking.endTime b >=? now) mine
       ++ filter (fun b => negb (Booking.endTime b >=? now)) mine)%list.
    + apply Permutation_app_tail. apply Permutation_sym, Permutation_rev.
    + apply filter_split_perm. reflexivity.
  - apply (StronglySorted_rev
             (fun a b => Booking.startTime b <= Booking.startTime a)).
    apply StronglySorted_filter. exact Hsorted.
  - apply StronglySorted_filter. exact Hsorted.
Qed.

(** ** The table stays free of double bookings *)

Lemma intersects_sym (s1 e1 s2 e2 : Date) :
  intersects s1 e1 s2 e2 = intersects s2 e2 s1 e1.
Proof. unfold intersects. apply andb_comm. Qed.

Lemma checkBookingConflict_row (db : Db) (vehicleId : string)
    (startTime endTime : Date) (excl : option string) (r : Booking.t) :
  checkBookingConflict db vehicleId startTime endTime excl = false ->
  In r (bookings db) -> idFilter excl r = true ->
  Booking.vehicleId r = vehicleId ->
  conflictOR startTime endTime (Booking.startTime r) (Booking.endTime r)
  = false.
Proof.
  unfold checkBookingConflict, prisma.booking_findFirst.
  intros Hc Hin Hid Hv.
  destruct (find _ (bookings db)) eqn:Hfind; [discriminate|].
  pose proof (find_none_false _ _ r Hfind Hin) as Hr.
  unfold conflictWhere in Hr. apply String.eqb_eq in Hv.
  rewrite Hv, Hid in Hr. exact Hr.
Qed.

(** A candidate that [checkBookingConflict] lets through is compatible,
    on both sides, with every valid row the query looked at. *)
Lemma candidate_compatible (db : Db) (excl : option string)
    (r new : Booking.t) :
  checkBookingConflict db (Booking.vehicleId new) (Booking.startTime new)
    (Booking.endTime new) excl = false ->
  validRow new -> validRow r ->
  In r (bookings db) -> idFilter excl r = true ->
  compatible r new /\ compatible new r.
Proof.
  intros Hc Hnew Hr Hin Hid.
  assert (H : Booking.vehicleId r = Booking.vehicleId new ->
              intersects (Booking.startTime new) (Booking.endTime new)
                (Booking.startTime r) (Booking.endTime r) = false).
  { intros Hv. rewrite <- (conflictOR_intersects _ _ _ _ Hnew Hr).
    exact (checkBookingConflict_row _ _ _ _ _ r Hc Hin Hid Hv). }
  split; intros Hv.
  - rewrite intersects_sym. apply H. exact Hv.
  - apply H. symmetry. exact Hv.
Qed.

Lemma ForallOrdPairs_snoc {A : Type} (R : A -> A -> Prop) (l : list A)
    (x : A) :
  ForallOrdPairs R l -> Forall (fun y => R y x) l ->
  ForallOrdPairs R (l ++ [x]).
Proof.
  intros Hl. induction Hl as [|y l Hy Hl IH]; simpl; intros Hall.
  - constructor; constructor.
  - inversion Hall as [|? ? Hyx Hrest]; subst.
    constructor; [|apply IH; exact Hrest].
    apply Forall_app. split; [exact Hy|]. constructor; [exact Hyx|constructor].
Qed.

Lemma post_bookings_Ok (db : Db) (now : Date) (user : User.t)
    (newId : string) (body : Body.t) (db' : Db) (b : Booking.t) :
  post_bookings db now user newId body = Ok (db', b) ->
  Body.startTime body < Body.endTime body
  /\ now <= Body.startTime body
  /\ prisma.vehicle_findUnique db (Body.vehicleId body) <> None
  /\ checkBookingConflict db (Body.vehicleId body) (Body.startTime body)
       (Body.endTime body) None = false
  /\ b = Booking.mk newId (User.id user) (Body.vehicleId body)
           (Body.startTime body) (Body.endTime body)
           (orNull (Body.title body)) (orNull (Body.description body))
  /\ db' = prisma.booking_create db b.
Proof.
  rewrite post_bookings_cases.
  destruct (Z.leb_spec (Body.endTime body) (Body.startTime body));
    [discriminate|].
  destruct (Z.ltb_spec (Body.startTime body) now); [discriminate|].
  destruct (prisma.vehicle_findUnique db (Body.vehicleId body));
    [|discriminate].
  destruct (checkBookingConflict _ _ _ _ _) eqn:Hc; [discriminate|].
  intros Heq. injection Heq as <- <-.
  repeat split; try assumption. discriminate.
Qed.

(** X4.  A creation that succeeds keeps the table free of double
    bookings: if every stored row is valid and no two rows of one vehicle
    intersect, the same holds once the new row is stored. *)
Theorem X4_post_keeps_noDoubleBooking :
  forall (db : Db) (now : Date) (user : User.t) (newId : string)
         (body : Body.t) (db' : Db) (b : Booking.t),
    noDoubleBooking db ->
    post_bookings db now user newId body = Ok (db', b) ->
    noDoubleBooking db'.
Proof.
  intros db now user newId body db' b [Hvalid Hpairs] Hok.
  destruct (post_bookings_Ok _ _ _ _ _ _ _ Hok)
    as (Hi & _ & _ & Hc & Hb & Hdb).
  assert (Hnew : validRow b) by (subst b; exact Hi).
  subst db'. unfold noDoubleBooking, prisma.booking_create. simpl. split.
  - apply Forall_app. split; [exact Hvalid|]. constructor; [exact Hnew|].
    constructor.
  - apply ForallOrdPairs_snoc; [exact Hpairs|].
    apply Forall_forall. intros r Hin.
    apply (candidate_compatible db None r b).
    + subst b. exact Hc.
    + exact Hnew.
    + revert r Hin. apply Forall_forall. exact Hvalid.
    + exact Hin.
    + reflexivity.
Qed.

Lemma X4_witness :
  noDoubleBooking
    (mkDb [Ex.row "b1" 10 20; Ex.row "b2" 30 40;
           Booking.mk "b3" "u2" "v1" 20 30 None None]
          [Ex.van; Ex.truck]).
Proof.
  apply (X4_post_keeps_noDoubleBooking Ex.db2 0 Ex.bob "b3"
           (Body.mk "v1" 20 30 None None) _
           (Booking.mk "b3" "u2" "v1" 20 30 None None)).
  - split.
    + repeat constructor.
    + repeat constructor; intros _; reflexivity.
  - reflexivity.
Defined.

Lemma put_bookings_id_Ok (db : Db) (now : Date) (user : User.t)
    (id : string) (body : Body.t) (db' : Db) (b : Booking.t) :
  put_bookings_id db now user id body = Ok (db', b) ->
  exists existingBooking,
    prisma.booking_findUnique db id = Some existingBooking
    /\ Booking.userId existingBooking = User.id user
    /\ Body.startTime body < Body.endTime body
    /\ now <= Body.startTime body
    /\ prisma.vehicle_findUnique db (Body.vehicleId body) <> None
    /\ checkBookingConflict db (Body.vehicleId body) (Body.startTime body)
         (Body.endTime body) (Some id) = false
    /\ b = put_data body existingBooking
    /\ db' = prisma.booking_update db id (put_data body).
Proof.
  rewrite put_bookings_id_cases.
  destruct (prisma.booking_findUnique db id) as [x|]; [|discriminate].
  destruct (String.eqb (Booking.userId x) (User.id user)) eqn:Hown;
    [|discriminate]. simpl.
  destruct (Z.leb_spec (Body.endTime body) (Body.startTime body));
    [discriminate|].
  destruct (Z.ltb_spec (Body.startTime body) now); [discriminate|].
  destruct (prisma.vehicle_findUnique db (Body.vehicleId body));
    [|discriminate].
  destruct (checkBookingConflict _ _ _ _ _) eqn:Hc; [discriminate|].
  intros Heq. injection Heq as <- <-. exists x.
  apply String.eqb_eq in Hown.
  repeat split; try assumption. discriminate.
Qed.

(** Rewriting the rows of one id keeps the pairs related when the new
    rows are related to the rows of the other ids. *)
Lemma ForallOrdPairs_update (R : Booking.t -> Booking.t -> Prop)
    (P : Booking.t -> Prop) (f : Booking.t -> Booking.t) (id : string)
    (l : list Booking.t) :
  (forall r, Booking.id r <> id -> f r = r) ->
  (forall r r', Booking.id r = id -> Booking.id r' <> id -> P r' ->
                R (f r) r' /\ R r' (f r)) ->
  NoDup (map Booking.id l) -> Forall P l ->
  ForallOrdPairs R l -> ForallOrdPairs R (map f l).
Proof.
  intros Hother Hnew. induction l as [|x l IH]; simpl; intros Hnd HP Hpairs.
  - constructor.
  - inversion Hnd as [|? ? Hx Hnd']; subst.
    inversion HP as [|? ? HPx HP']; subst.
    inversion Hpairs as [|? ? Hxl Hpairs']; subst.
    constructor; [|apply IH; assumption].
    apply Forall_forall. intros y' Hy'. apply in_map_iff in Hy'.
    destruct Hy' as (y & <- & Hy).
    pose proof (proj1 (Forall_forall _ _) Hxl y Hy) as HRxy.
    pose proof (proj1 (Forall_forall _ _) HP' y Hy) as HPy.
    destruct (string_dec (Booking.id x) id) as [Hxid|Hxid].
    + assert (Hyid : Booking.id y <> id).
      { intros Hyid. apply Hx. rewrite Hxid, <- Hyid.
        apply in_map. exact Hy. }
      rewrite (Hother y Hyid). apply (Hnew x y); assumption.
    + rewrite (Hother x Hxid).
      destruct (string_dec (Booking.id y) id) as [Hyid|Hyid].
      * apply (Hnew y x); assumption.
      * rewrite (Hother y Hyid). exact HRxy.
Qed.

(** X5.  An update that the user route commits keeps the table free of
    double bookings, and keeps the ids apart, when the ids were apart. *)
Theorem X5_put_keeps_noDoubleBooking :
  forall (db : Db) (now : Date) (user : User.t) (id : string)
         (body : Body.t) (db' : Db) (b : Booking.t),
    noDoubleBooking db -> uniqueIds db ->
    put_bookings_id db now user id body = Ok (db', b) ->
    noDoubleBooking db' /\ uniqueIds db'.
Proof.
  intros db now user id body db' b [Hvalid Hpairs] Hids Hok.
  destruct (put_bookings_id_Ok _ _ _ _ _ _ _ Hok)
    as (x & _ & _ & Hi & _ & _ & Hc & _ & Hdb).
  subst db'. unfold noDoubleBooking, uniqueIds, prisma.booking_update.
  simpl.
  set (f := fun b0 : Booking.t =>
              if String.eqb (Booking.id b0) id then put_data body b0
              else b0).
  assert (Hother : forall r, Booking.id r <> id -> f r = r).
  { intros r Hr. unfold f. apply String.eqb_neq in Hr. rewrite Hr.
    reflexivity. }
  assert (Hsame : forall r, Booking.id r = id -> f r = put_data body r).
  { intros r Hr. unfold f. apply String.eqb_eq in Hr. rewrite Hr.
    reflexivity. }
  assert (Hfid : forall r, Booking.id (f r) = Booking.id r).
  { intros r. unfold f. destruct (String.eqb (Booking.id r) id);
      reflexivity. }
  split; [split|].
  - apply Forall_forall. intros y' Hy'. apply in_map_iff in Hy'.
    destruct Hy' as (y & <- & Hy).
    destruct (string_dec (Booking.id y) id) as [Hyid|Hyid].
    + rewrite (Hsame y Hyid). exact Hi.
    + rewrite (Hother y Hyid).
      exact (proj1 (Forall_forall _ _) Hvalid y Hy).
  - apply (ForallOrdPairs_update compatible
             (fun r => In r (bookings db) /\ validRow r) f id);
      try assumption.
    + intros r r' Hr Hr' [Hin Hval]. rewrite (Hsame r Hr).
      assert (H : compatible r' (put_data body r)
                  /\ compatible (put_data body r) r').
      { apply (candidate_compatible db (Some id)).
        - exact Hc.
        - exact Hi.
        - exact Hval.
        - exact Hin.
        - unfold idFilter. apply String.eqb_neq in Hr'. rewrite Hr'.
          destruct (truthy id); reflexivity. }
      tauto.
    + apply Forall_forall. intros r Hr. split; [exact Hr|].
      revert r Hr. apply Forall_forall. exact Hvalid.
  - rewrite map_map. rewrite (map_ext _ Booking.id Hfid). exact Hids.
Qed.

Lemma X5_witness :
  noDoubleBooking
    (mkDb [Ex.row "b1" 20 30; Ex.row "b2" 30 40] [Ex.van; Ex.truck])
  /\ uniqueIds
       (mkDb [Ex.row "b1" 20 30; Ex.row "b2" 30 40] [Ex.van; Ex.truck]).
Proof.
  apply (X5_put_keeps_noDoubleBooking Ex.db2 0 Ex.alice "b1"
           (Body.mk "v1" 20 30 None None) _ (Ex.row "b1" 20 30)).
  - split.
    + repeat constructor.
    + repeat constructor; intros _; reflexivity.
  - unfold uniqueIds. simpl. repeat constructor; simpl.
    + intros [H|[]]. discriminate H.
    + intros [].
  - reflexivity.
Defined.

(** ** A stored booking blocks what intersects it *)

Lemma find_In_true {A : Type} (f : A -> bool) (l : list A) (x : A) :
  In x l -> f x = true -> find f l <> None.
Proof.
  intros Hin Hx Hnone.
  rewrite (find_none_false f l x Hnone Hin) in Hx. discriminate.
Qed.

Lemma checkBookingConflict_hit (db : Db) (vehicleId : string)
    (startTime endTime : Date) (excl : option string) (r : Booking.t) :
  In r (bookings db) ->
  conflictWhere vehicleId startTime endTime excl r = true ->
  checkBookingConflict db vehicleId startTime endTime excl = true.
Proof.
  intros Hin Hr. unfold checkBookingConflict, prisma.booking_findFirst.
  destruct (find _ (bookings db)) eqn:Hfind; [reflexivity|].
  exfalso. exact (find_In_true _ _ r Hin Hr Hfind).
Qed.

(** X6.  Once a booking is created, every later request to create a valid
    booking on the same vehicle, not in the past, whose interval
    intersects it is rejected with [Conflict]; a repeated request is one
    of them. *)
Theorem X6_created_booking_blocks_overlap :
  forall (db : Db) (now : Date) (user : User.t) (newId : string)
         (body : Body.t) (db' : Db) (b : Booking.t)
         (now' : Date) (user' : User.t) (newId' : string) (body' : Body.t),
    post_bookings db now user newId body = Ok (db', b) ->
    Body.vehicleId body' = Body.vehicleId body ->
    Body.startTime body' < Body.endTime body' ->
    now' <= Body.startTime body' ->
    Body.startTime body' < Body.endTime body ->
    Body.startTime body < Body.endTime body' ->
    post_bookings db' now' user' newId' body'
    = Throw (mkAppError Conflict
               "This time slot is already booked for this vehicle. Please choose a different time."
               409).
Proof.
  intros db now user newId body db' b now' user' newId' body'
    Hok Hv Hi' Hp' H1 H2.
  destruct (post_bookings_Ok _ _ _ _ _ _ _ Hok)
    as (Hi & _ & Hveh & _ & Hb & Hdb).
  rewrite post_bookings_cases.
  apply Z.leb_gt in Hi'. apply Z.ltb_ge in Hp'. rewrite Hi', Hp'.
  replace (prisma.vehicle_findUnique db' (Body.vehicleId body'))
    with (prisma.vehicle_findUnique db (Body.vehicleId body))
    by (subst db'; rewrite Hv; reflexivity).
  destruct (prisma.vehicle_findUnique db (Body.vehicleId body));
    [|congruence].
  rewrite (checkBookingConflict_hit db' _ _ _ None b); [reflexivity| |].
  - subst db'. unfold prisma.booking_create. simpl.
    apply in_or_app. right. left. reflexivity.
  - subst b. unfold conflictWhere. simpl. rewrite Hv, String.eqb_refl.
    simpl. apply Z.leb_gt in Hi'.
    rewrite (conflictOR_intersects _ _ _ _ Hi' Hi).
    apply intersects_true. split; assumption.
Qed.

Lemma X6_witness :
  post_bookings
    (mkDb [Ex.row "b1" 10 20; Booking.mk "b2" "u2" "v1" 20 30 None None]
          [Ex.van; Ex.truck])
    5 Ex.alice "b3" (Body.mk "v1" 25 35 None None)
  = Throw (mkAppError Conflict
             "This time slot is already booked for this vehicle. Please choose a different time."
             409).
Proof.
  apply (X6_created_booking_blocks_overlap Ex.db0 0 Ex.bob "b2"
           (Body.mk "v1" 20 30 None None) _
           (Booking.mk "b2" "u2" "v1" 20 30 None None));
    try reflexivity; simpl; lia.
Defined.

(** ** Cancelling a booking *)

Lemma findUnique_filter_same (l : list Booking.t) (id : string) :
  find (fun b => String.eqb (Booking.id b) id)
       (filter (fun b => negb (String.eqb (Booking.id b) id)) l) = None.
Proof.
  induction l as [|b l IH]; simpl.
  - reflexivity.
  - destruct (String.eqb (Booking.id b) id) eqn:Hb; simpl.
    + exact IH.
    + rewrite Hb. exact IH.
Qed.

(** X7.  [DELETE /api/bookings/:id] lets only the owner cancel: a missing
    booking gives 404, another user's booking gives 403, and for the owner
    the rows with that id are removed, every other row and every vehicle
    staying as they were. *)
Theorem X7_delete_bookings_id_owner_only :
  forall (db : Db) (user : User.t) (id : string),
    (prisma.booking_findUnique db id = None ->
     delete_bookings_id db user id
     = Throw (mkAppError BookingNotFound "Booking not found" 404))
    /\ (forall x,
           prisma.booking_findUnique db id = Some x ->
           Booking.userId x <> User.id user ->
           delete_bookings_id db user id
           = Throw (mkAppError Forbidden
                      "You can only cancel your own bookings" 403))
    /\ (forall x,
           prisma.booking_findUnique db id = Some x ->
           Booking.userId x = User.id user ->
           exists db',
             delete_bookings_id db user id = Ok db'
             /\ prisma.booking_findUnique db' id = None
             /\ vehicles db' = vehicles db
             /\ forall r, In r (bookings db') <->
                          In r (bookings db) /\ Booking.id r <> id).
Proof.
  intros db user id. unfold delete_bookings_id, orThrow, throwIf, bind.
  split; [|split].
  - intros Hnone. rewrite Hnone. reflexivity.
  - intros x Hx Hown. rewrite Hx, (eqb_userId_neq _ _ Hown). reflexivity.
  - intros x Hx Hown. rewrite Hx, Hown, String.eqb_refl. simpl.
    eexists. split; [reflexivity|]. split; [|split].
    + apply findUnique_filter_same.
    + reflexivity.
    + intros r. unfold booking_delete. simpl.
      rewrite filter_In, negb_true_iff, String.eqb_neq. reflexivity.
Qed.

Lemma find_filter {A : Type} (f g : A -> bool) (l : list A) :
  find f (filter g l) = find (fun x => g x && f x) l.
Proof.
  induction l as [|x l IH]; simpl.
  - reflexivity.
  - destruct (g x); simpl; [rewrite IH; reflexivity | exact IH].
Qed.

(** Looking for a conflict after the row is deleted is looking for one
    with the row left out. *)
Lemma checkBookingConflict_delete (db : Db) (id vehicleId : string)
    (startTime endTime : Date) :
  truthy id = true ->
  checkBookingConflict (booking_delete db id) vehicleId startTime endTime
    None
  = checkBookingConflict db vehicleId startTime endTime (Some id).
Proof.
  intros Hid.
  unfold checkBookingConflict, prisma.booking_findFirst, booking_delete.
  simpl. rewrite find_filter.
  rewrite (find_ext_Forall (fun _ => True) _
             (conflictWhere vehicleId startTime endTime (Some id))).
  - reflexivity.
  - intros b _. unfold conflictWhere. rewrite (idFilter_truthy _ _ Hid).
    simpl. destruct (String.eqb (Booking.vehicleId b) vehicleId),
      (String.eqb (Booking.id b) id); reflexivity.
  - apply Forall_forall. intros; exact I.
Qed.

(** X8.  Cancelling a booking and then asking for a new one is decided as
    an edit of the booking in place is: after the owner's [DELETE], a
    [POST] is rejected for the same reason, or admitted, exactly as the
    [PUT] with the same body would have been before. *)
Theorem X8_cancel_then_rebook_as_edit :
  forall (db : Db) (now : Date) (user : User.t) (id newId : string)
         (body : Body.t) (db' : Db),
    truthy id = true ->
    delete_bookings_id db user id = Ok db' ->
    rejection (post_bookings db' now user newId body)
    = rejection (put_bookings_id db now user id body).
Proof.
  intros db now user id newId body db' Hid Hdel.
  unfold delete_bookings_id, orThrow, throwIf, bind in Hdel.
  rewrite post_bookings_cases, put_bookings_id_cases.
  destruct (prisma.booking_findUnique db id) as [x|]; [|discriminate].
  destruct (negb (String.eqb (Booking.userId x) (User.id user)));
    [discriminate|].
  injection Hdel as <-.
  destruct (Body.endTime body <=? Body.startTime body); [reflexivity|].
  destruct (Body.startTime body <? now); [reflexivity|].
  change (prisma.vehicle_findUnique (booking_delete db id))
    with (prisma.vehicle_findUnique db).
  destruct (prisma.vehicle_findUnique db (Body.vehicleId body));
    [|reflexivity].
  rewrite (checkBookingConflict_delete _ _ _ _ _ Hid).
  destruct (checkBookingConflict _ _ _ _ _); reflexivity.
Qed.

Lemma X8_witness :
  rejection (post_bookings (mkDb [Ex.row "b2" 30 40] [Ex.van; Ex.truck])
               0 Ex.alice "b3" (Body.mk "v1" 15 35 None None))
  = rejection (put_bookings_id Ex.db2 0 Ex.alice "b1"
                 (Body.mk "v1" 15 35 None None)).
Proof.
  apply (X8_cancel_then_rebook_as_edit Ex.db2 0 Ex.alice "b1" "b3"
           (Body.mk "v1" 15 35 None None)); reflexivity.
Defined.

(** X9.  [isOwner] in the answer of [GET /api/bookings/:id] tells what the
    ownership checks of [PUT] and [DELETE] will do: the [PUT] is rejected
    with [Forbidden], whatever its body, exactly when [isOwner] is false,
    and the [DELETE] succeeds when [isOwner] is true and is rejected with
    [Forbidden] otherwise.  Reading is open: every user gets the row. *)
Theorem X9_isOwner_matches_ownership_gate :
  forall (db : Db) (user : User.t) (id : string) (b : Booking.t)
         (isOwner : bool),
    get_bookings_id db user id = Ok (b, isOwner) ->
    (forall now body,
        rejection (put_bookings_id db now user id body) = Some Forbidden
        <-> isOwner = false)
    /\ rejection (delete_bookings_id db user id)
       = (if isOwner then None else Some Forbidden)
    /\ (forall other,
           exists o, get_bookings_id db other id = Ok (b, o)).
Proof.
  intros db user id b isOwner.
  unfold get_bookings_id, delete_bookings_id, orThrow, throwIf, bind.
  destruct (prisma.booking_findUnique db id) as [x|] eqn:Hx;
    [|discriminate].
  intros Heq. injection Heq as <- <-.
  split; [|split].
  - intros now body. rewrite put_bookings_id_cases, Hx.
    destruct (String.eqb (Booking.userId x) (User.id user)); simpl.
    + split; [|discriminate].
      destruct (Body.endTime body <=? Body.startTime body);
        [discriminate|].
      destruct (Body.startTime body <? now); [discriminate|].
      destruct (prisma.vehicle_findUnique db (Body.vehicleId body));
        [|discriminate].
      destruct (checkBookingConflict _ _ _ _ _); discriminate.
    + split; reflexivity.
  - destruct (String.eqb (Booking.userId x) (User.id user)); reflexivity.
  - intros other. eexists. reflexivity.
Qed.

Lemma X9_witness :
  (forall now body,
      rejection (put_bookings_id Ex.db0 now Ex.bob "b1" body)
      = Some Forbidden <-> false = false)
  /\ rejection (delete_bookings_id Ex.db0 Ex.bob "b1") = Some Forbidden
  /\ (forall other,
         exists o,
           get_bookings_id Ex.db0 other "b1" = Ok (Ex.row "b1" 10 20, o)).
Proof.
  apply (X9_isOwner_matches_ownership_gate Ex.db0 Ex.bob "b1"
           (Ex.row "b1" 10 20) false).
  reflexivity.
Defined.

(** ** The status of a rejection *)

(** X10.  Whatever a booking route throws, [errorHandler] answers with the
    message of the error and with the status of its kind: 400 for an
    invalid interval or a start in the past, 403 for a booking of another
    user, 404 for a missing booking or vehicle, 409 for a conflict. *)
Theorem X10_booking_errors_status :
  forall (db : Db) (now : Date) (user : User.t) (id newId : string)
         (body : Body.t) (e : AppError),
    post_bookings db now user newId body = Throw e
    \/ put_bookings_id db now user id body = Throw e
    \/ delete_bookings_id db user id = Throw e
    \/ get_bookings_id db user id = Throw e ->
    errorHandler (AppErr e) = (statusOf (kind e), message e).
Proof.
  intros db now user id newId body e H. simpl.
  assert (Hs : statusCode e = statusOf (kind e));
    [|rewrite Hs; reflexivity].
  destruct H as [H|[H|[H|H]]].
  - rewrite post_bookings_cases in H.
    destruct (Body.endTime body <=? Body.startTime body);
      [injection H as <-; reflexivity|].
    destruct (Body.startTime body <? now);
      [injection H as <-; reflexivity|].
    destruct (prisma.vehicle_findUnique db (Body.vehicleId body));
      [|injection H as <-; reflexivity].
    destruct (checkBookingConflict _ _ _ _ _);
      [injection H as <-; reflexivity | discriminate].
  - rewrite put_bookings_id_cases in H.
    destruct (prisma.booking_findUnique db id) as [x|];
      [|injection H as <-; reflexivity].
    destruct (negb _); [injection H as <-; reflexivity|].
    destruct (Body.endTime body <=? Body.startTime body);
      [injection H as <-; reflexivity|].
    destruct (Body.startTime body <? now);
      [injection H as <-; reflexivity|].
    destruct (prisma.vehicle_findUnique db (Body.vehicleId body));
      [|injection H as <-; reflexivity].
    destruct (checkBookingConflict _ _ _ _ _);
      [injection H as <-; reflexivity | discriminate].
  - unfold delete_bookings_id, orThrow, throwIf, bind in H.
    destruct (prisma.booking_findUnique db id) as [x|];
      [|injection H as <-; reflexivity].
    destruct (negb _); [injection H as <-; reflexivity | discriminate].
  - unfold get_bookings_id, orThrow, bind in H.
    destruct (prisma.booking_findUnique db id) as [x|];
      [discriminate | injection H as <-; reflexivity].
Qed.

Lemma X10_witness :
  errorHandler
    (AppErr (mkAppError Conflict
               "This time slot is already booked for this vehicle. Please choose a different time."
               409))
  = (409,
     "This time slot is already booked for this vehicle. Please choose a different time.").
Proof.
  apply (X10_booking_errors_status Ex.db0 0 Ex.bob "b1" "b2"
           (Body.mk "v1" 15 25 None None)).
  left. reflexivity.
Defined.

(** ** What an update and a creation leave in the table *)

Lemma find_map_update (l : list Booking.t) (id : string)
    (data : Booking.t -> Booking.t) (x : Booking.t) :
  (forall b, Booking.id (data b) = Booking.id b) ->
  find (fun b => String.eqb (Booking.id b) id) l = Some x ->
  find (fun b => String.eqb (Booking.id b) id)
       (map (fun b => if String.eqb (Booking.id b) id then data b else b) l)
  = Some (data x).
Proof.
  intros Hdata. induction l as [|y l IH]; simpl; [discriminate|].
  destruct (String.eqb (Booking.id y) id) eqn:Hy.
  - intros Heq. injection Heq as <-. rewrite Hdata, Hy. reflexivity.
  - rewrite Hy. exact IH.
Qed.

Lemma map_update_In (l : list Booking.t) (id : string)
    (data : Booking.t -> Booking.t) (r : Booking.t) :
  In r l -> Booking.id r <> id ->
  In r (map (fun b => if String.eqb (Booking.id b) id then data b else b) l).
Proof.
  intros Hin Hr. apply in_map_iff. exists r. split; [|exact Hin].
  apply String.eqb_neq in Hr. rewrite Hr. reflexivity.
Qed.

(** X11.  An update that the user route commits rewrites the booking and
    nothing else: the ids and the owners of all rows are as before, row by
    row, the rows of the other ids and the vehicles are untouched, and
    [GET /api/bookings/:id] then answers with the updated booking, which
    still belongs to the caller. *)
Theorem X11_put_rewrites_one_booking :
  forall (db : Db) (now : Date) (user : User.t) (id : string)
         (body : Body.t) (db' : Db) (b : Booking.t),
    put_bookings_id db now user id body = Ok (db', b) ->
    map Booking.id (bookings db') = map Booking.id (bookings db)
    /\ map Booking.userId (bookings db') = map Booking.userId (bookings db)
    /\ vehicles db' = vehicles db
    /\ (forall r, In r (bookings db) -> Booking.id r <> id ->
                  In r (bookings db'))
    /\ get_bookings_id db' user id = Ok (b, true)
    /\ Booking.vehicleId b = Body.vehicleId body
    /\ Booking.startTime b = Body.startTime body
    /\ Booking.endTime b = Body.endTime body.
Proof.
  intros db now user id body db' b Hok.
  destruct (put_bookings_id_Ok _ _ _ _ _ _ _ Hok)
    as (x & Hx & Hown & _ & _ & _ & _ & Hb & Hdb).
  subst db' b. unfold prisma.booking_update. simpl.
  split; [|split; [|split; [|split; [|split]]]].
  - rewrite map_map. apply map_ext. intros r.
    destruct (String.eqb (Booking.id r) id); reflexivity.
  - rewrite map_map. apply map_ext. intros r.
    destruct (String.eqb (Booking.id r) id); reflexivity.
  - reflexivity.
  - intros r Hin Hr. apply map_update_In; assumption.
  - unfold get_bookings_id, prisma.booking_findUnique, orThrow, bind. simpl.
    unfold prisma.booking_findUnique in Hx.
    rewrite (find_map_update _ _ (put_data body) x (fun _ => eq_refl) Hx).
    simpl. rewrite Hown, String.eqb_refl. reflexivity.
  - repeat split.
Qed.

Lemma X11_witness :
  map Booking.id
    (bookings (mkDb [Ex.row "b1" 20 30; Ex.row "b2" 30 40]
                 [Ex.van; Ex.truck]))
  = map Booking.id (bookings Ex.db2)
  /\ map Booking.userId
       (bookings (mkDb [Ex.row "b1" 20 30; Ex.row "b2" 30 40]
                    [Ex.van; Ex.truck]))
     = map Booking.userId (bookings Ex.db2)
  /\ vehicles (mkDb [Ex.row "b1" 20 30; Ex.row "b2" 30 40]
                 [Ex.van; Ex.truck])
     = vehicles Ex.db2
  /\ (forall r, In r (bookings Ex.db2) -> Booking.id r <> "b1" ->
                In r (bookings (mkDb [Ex.row "b1" 20 30; Ex.row "b2" 30 40]
                                  [Ex.van; Ex.truck])))
  /\ get_bookings_id
       (mkDb [Ex.row "b1" 20 30; Ex.row "b2" 30 40] [Ex.van; Ex.truck])
       Ex.alice "b1"
     = Ok (Ex.row "b1" 20 30, true)
  /\ Booking.vehicleId (Ex.row "b1" 20 30) = "v1"
  /\ Booking.startTime (Ex.row "b1" 20 30) = 20
  /\ Booking.endTime (Ex.row "b1" 20 30) = 30.
Proof.
  apply (X11_put_rewrites_one_booking Ex.db2 0 Ex.alice "b1"
           (Body.mk "v1" 20 30 None None)).
  reflexivity.
Defined.

(** X12.  The admin update changes neither the id nor the owner of any
    row, row by row, and no vehicle, whatever the body and whatever its
    answer. *)
Theorem X12_admin_put_keeps_id_and_owner :
  forall (id : string) (body : AdminBody.t) (db : Db),
    map Booking.id (bookings (fst (admin_put_bookings_id id body db)))
    = map Booking.id (bookings db)
    /\ map Booking.userId
         (bookings (fst (admin_put_bookings_id id body db)))
       = map Booking.userId (bookings db)
    /\ vehicles (fst (admin_put_bookings_id id body db)) = vehicles db.
Proof.
  intros id body db. unfold admin_put_bookings_id.
  destruct (admin_conflict db id body); [repeat split|].
  unfold prisma.booking_update_or_throw.
  destruct (prisma.booking_findUnique db id) as [x|]; [|repeat split].
  destruct (prisma.vehicle_findUnique db _); [|repeat split].
  unfold prisma.booking_update. simpl. repeat split.
  - rewrite map_map. apply map_ext. intros r.
    destruct (String.eqb (Booking.id r) id); reflexivity.
  - rewrite map_map. apply map_ext. intros r.
    destruct (String.eqb (Booking.id r) id); reflexivity.
Qed.

Lemma find_app_fresh (l : list Booking.t) (b : Booking.t) (id : string) :
  ~ In id (map Booking.id l) ->
  find (fun r => String.eqb (Booking.id r) id) (l ++ [b])
  = if String.eqb (Booking.id b) id then Some b else None.
Proof.
  induction l as [|y l IH]; simpl; intros Hfresh.
  - reflexivity.
  - destruct (String.eqb (Booking.id y) id) eqn:Hy.
    + apply String.eqb_eq in Hy. exfalso. apply Hfresh. left. exact Hy.
    + apply IH. intros Hin. apply Hfresh. right. exact Hin.
Qed.

Lemma find_app_other (l : list Booking.t) (b : Booking.t) (id : string) :
  Booking.id b <> id ->
  find (fun r => String.eqb (Booking.id r) id) (l ++ [b])
  = find (fun r => String.eqb (Booking.id r) id) l.
Proof.
  intros Hb. apply String.eqb_neq in Hb.
  induction l as [|y l IH]; simpl.
  - rewrite Hb. reflexivity.
  - destruct (String.eqb (Booking.id y) id); [reflexivity | exact IH].
Qed.

(** X13.  A creation that succeeds, under an id that no row has, adds the
    one row: [GET /api/bookings/:id] then answers with the new booking and
    [isOwner = true] for its creator, every other id is looked up as
    before, the ids stay apart, and an empty title or description is
    stored as null, never as the empty string. *)
Theorem X13_post_adds_one_booking :
  forall (db : Db) (now : Date) (user : User.t) (newId : string)
         (body : Body.t) (db' : Db) (b : Booking.t),
    ~ In newId (map Booking.id (bookings db)) ->
    post_bookings db now user newId body = Ok (db', b) ->
    get_bookings_id db' user newId = Ok (b, true)
    /\ (forall id, id <> newId ->
                   prisma.booking_findUnique db' id
                   = prisma.booking_findUnique db id)
    /\ bookings db' = (bookings db ++ [b])%list
    /\ vehicles db' = vehicles db
    /\ (uniqueIds db -> uniqueIds db')
    /\ Booking.title b <> Some EmptyString
    /\ Booking.description b <> Some EmptyString.
Proof.
  intros db now user newId body db' b Hfresh Hok.
  destruct (post_bookings_Ok _ _ _ _ _ _ _ Hok)
    as (_ & _ & _ & _ & Hb & Hdb).
  assert (Hid : Booking.id b = newId) by (subst b; reflexivity).
  assert (Hu : Booking.userId b = User.id user) by (subst b; reflexivity).
  split; [|split; [|split; [|split; [|split; [|split]]]]].
  - unfold get_bookings_id, prisma.booking_findUnique, orThrow, bind.
    subst db'. unfold prisma.booking_create. simpl.
    rewrite (find_app_fresh _ _ _ Hfresh), Hid, String.eqb_refl. simpl.
    rewrite Hu, String.eqb_refl. reflexivity.
  - intros id Hne. subst db'.
    unfold prisma.booking_findUnique, prisma.booking_create. simpl.
    apply find_app_other. rewrite Hid. congruence.
  - subst db'. reflexivity.
  - subst db'. reflexivity.
  - subst db'. unfold uniqueIds, prisma.booking_create. simpl.
    intros Hnd. rewrite map_app. simpl.
    apply NoDup_rev in Hnd. rewrite <- (rev_involutive (_ ++ _)).
    apply NoDup_rev. rewrite rev_app_distr. simpl.
    constructor; [|exact Hnd].
    rewrite Hid. intros Hin. apply in_rev in Hin. exact (Hfresh Hin).
  - subst b. simpl. unfold orNull.
    destruct (Body.title body) as [[|c s]|]; simpl; discriminate.
  - subst b. simpl. unfold orNull.
    destruct (Body.description body) as [[|c s]|]; simpl; discriminate.
Qed.

Lemma X13_witness :
  get_bookings_id
    (mkDb [Ex.row "b1" 10 20; Booking.mk "b2" "u2" "v1" 20 30 None None]
          [Ex.van; Ex.truck])
    Ex.bob "b2"
  = Ok (Booking.mk "b2" "u2" "v1" 20 30 None None, true)
  /\ (forall id, id <> "b2" ->
                 prisma.booking_findUnique
                   (mkDb [Ex.row "b1" 10 20;
                          Booking.mk "b2" "u2" "v1" 20 30 None None]
                         [Ex.van; Ex.truck]) id
                 = prisma.booking_findUnique Ex.db0 id)
  /\ bookings
       (mkDb [Ex.row "b1" 10 20; Booking.mk "b2" "u2" "v1" 20 30 None None]
             [Ex.van; Ex.truck])
     = (bookings Ex.db0
        ++ [Booking.mk "b2" "u2" "v1" 20 30 None None])%list
  /\ vehicles
       (mkDb [Ex.row "b1" 10 20; Booking.mk "b2" "u2" "v1" 20 30 None None]
             [Ex.van; Ex.truck])
     = vehicles Ex.db0
  /\ (uniqueIds Ex.db0 ->
      uniqueIds
        (mkDb [Ex.row "b1" 10 20; Booking.mk "b2" "u2" "v1" 20 30 None None]
              [Ex.van; Ex.truck]))
  /\ Booking.title (Booking.mk "b2" "u2" "v1" 20 30 None None)
     <> Some EmptyString
  /\ Booking.description (Booking.mk "b2" "u2" "v1" 20 30 None None)
     <> Some EmptyString.
Proof.
  apply (X13_post_adds_one_booking Ex.db0 0 Ex.bob "b2"
           (Body.mk "v1" 20 30 (Some EmptyString) None)).
  - simpl. intros [H|[]]. discriminate H.
  - reflexivity.
Defined.

(** ** Deleting many bookings *)

Lemma filter_count {A : Type} (p : A -> bool) (l : list A) :
  (List.length (filter p l)
   + List.length (filter (fun x => negb (p x)) l))%nat
  = List.length l.
Proof.
  induction l as [|x l IH]; simpl.
  - reflexivity.
  - destruct (p x); simpl; lia.
Qed.

Lemma filter_twice {A : Type} (p q : A -> bool) (l : list A) :
  filter p (filter q l) = filter (fun x => q x && p x) l.
Proof.
  induction l as [|x l IH]; simpl.
  - reflexivity.
  - destruct (q x); simpl; [destruct (p x)|]; rewrite IH; reflexivity.
Qed.

Lemma filter_swap {A : Type} (p q : A -> bool) (l : list A) :
  filter p (filter q l) = filter q (filter p l).
Proof.
  rewrite !filter_twice. apply filter_ext. intros x. apply andb_comm.
Qed.

Lemma filter_none {A : Type} (p : A -> bool) (l : list A) :
  (forall x, In x l -> p x = false) -> filter p l = [].
Proof.
  induction l as [|x l IH]; simpl; intros H.
  - reflexivity.
  - rewrite (H x (or_introl eq_refl)). apply IH.
    intros y Hy. apply H. right. exact Hy.
Qed.

Lemma filter_all {A : Type} (p : A -> bool) (l : list A) :
  (forall x, In x l -> p x = true) -> filter p l = l.
Proof.
  induction l as [|x l IH]; simpl; intros H.
  - reflexivity.
  - rewrite (H x (or_introl eq_refl)). f_equal. apply IH.
    intros y Hy. apply H. right. exact Hy.
Qed.

(** What [deleteMany] leaves and what it counts. *)
Lemma booking_deleteMany_spec (db : Db) (where_ : Booking.t -> bool) :
  (forall r, In r (bookings (fst (booking_deleteMany db where_))) <->
             In r (bookings db) /\ where_ r = false)
  /\ vehicles (fst (booking_deleteMany db where_)) = vehicles db
  /\ (snd (booking_deleteMany db where_)
      + List.length (bookings (fst (booking_deleteMany db where_))))%nat
     = List.length (bookings db)
  /\ booking_deleteMany (fst (booking_deleteMany db where_)) where_
     = (fst (booking_deleteMany db where_), 0%nat).
Proof.
  unfold booking_deleteMany, prisma.booking_count. simpl.
  split; [|split; [|split]].
  - intros r. rewrite filter_In, negb_true_iff. reflexivity.
  - reflexivity.
  - apply filter_count.
  - f_equal.
    + f_equal. apply filter_all. intros x Hx.
      apply filter_In in Hx. tauto.
    + rewrite filter_none; [reflexivity|]. intros x Hx.
      apply filter_In in Hx. apply negb_true_iff. tauto.
Qed.

Section FilterSort.

Context {A : Type}.
Variable le : A -> A -> bool.
Variable p : A -> bool.
Hypothesis le_total : forall a b, le a b = true \/ le b a = true.
Hypothesis le_trans :
  forall a b c, le a b = true -> le b c = true -> le a c = true.

Lemma insertBy_head (x : A) (l : list A) :
  Forall (fun y => le x y = true) l -> insertBy le x l = x :: l.
Proof.
  intros Hl. destruct Hl as [|y l Hy _]; simpl.
  - reflexivity.
  - rewrite Hy. reflexivity.
Qed.

Lemma filter_insertBy (x : A) (l : list A) :
  StronglySorted (fun a b => le a b = true) l ->
  filter p (insertBy le x l)
  = if p x then insertBy le x (filter p l) else filter p l.
Proof.
  intros Hl. induction Hl as [|y l Hl IH Hy].
  - simpl. destruct (p x); reflexivity.
  - cbn [insertBy]. destruct (le x y) eqn:Hxy.
    + cbn [filter]. destruct (p x); [|reflexivity].
      symmetry. apply insertBy_head.
      assert (Hall : Forall (fun z => le x z = true) (y :: l)).
      { constructor; [exact Hxy|].
        apply Forall_impl with (P := fun z => le y z = true); [|exact Hy].
        intros z Hz. exact (le_trans _ _ _ Hxy Hz). }
      apply Forall_forall. intros z Hz.
      change (In z (filter p (y :: l))) in Hz.
      apply filter_In in Hz.
      exact (proj1 (Forall_forall _ _) Hall z (proj1 Hz)).
    + cbn [filter]. rewrite IH.
      destruct (p y), (p x); try reflexivity.
      cbn [insertBy]. rewrite Hxy. reflexivity.
Qed.

(** Filtering a sorted list and sorting a filtered list give the same
    list. *)
Lemma filter_sortBy (l : list A) :
  filter p (sortBy le l) = sortBy le (filter p l).
Proof.
  induction l as [|x l IH]; simpl.
  - reflexivity.
  - rewrite filter_insertBy by (apply sortBy_sorted; assumption).
    rewrite IH. destruct (p x); reflexivity.
Qed.

End FilterSort.

Lemma startTime_desc_total (a b : Booking.t) :
  startTime_desc a b = true \/ startTime_desc b a = true.
Proof.
  unfold startTime_desc.
  destruct (Z.leb_spec (Booking.startTime b) (Booking.startTime a));
    [left; reflexivity | right; apply Z.leb_le; lia].
Qed.

Lemma startTime_desc_trans (a b c : Booking.t) :
  startTime_desc a b = true -> startTime_desc b c = true ->
  startTime_desc a c = true.
Proof.
  unfold startTime_desc. intros H1 H2.
  apply Z.leb_le in H1, H2. apply Z.leb_le. lia.
Qed.

(** X14.  The cleanup of past bookings removes exactly the rows with
    [endTime < now] and reports how many they were; the vehicles stay, and
    a second cleanup at the same instant finds nothing.  It removes what
    [GET /api/bookings/my] files under [past] and nothing else: afterwards
    every user has an empty [past] and the same [upcoming] as before. *)
Theorem X14_cleanup_removes_the_past :
  forall (now : Date) (db : Db),
    exists db' count,
      admin_cleanup_past now db
      = (db', Reply.mk 200 (Reply.pastBookingsDeleted count))
      /\ (forall r, In r (bookings db') <->
                    In r (bookings db) /\ now <= Booking.endTime r)
      /\ (count + List.length (bookings db'))%nat
         = List.length (bookings db)
      /\ vehicles db' = vehicles db
      /\ admin_cleanup_past now db'
         = (db', Reply.mk 200 (Reply.pastBookingsDeleted 0))
      /\ forall user,
           My.past (get_bookings_my db' now user) = []
           /\ My.upcoming (get_bookings_my db' now user)
              = My.upcoming (get_bookings_my db now user).
Proof.
  intros now db. unfold admin_cleanup_past.
  destruct (booking_deleteMany_spec db (fun b => Booking.endTime b <? now))
    as (Hrows & Hveh & Hcount & Hidem).
  eexists. eexists. split; [reflexivity|].
  split; [|split; [|split; [|split]]].
  - intros r. rewrite Hrows, Z.ltb_ge. reflexivity.
  - exact Hcount.
  - exact Hveh.
  - rewrite Hidem. reflexivity.
  - intros user. unfold get_bookings_my. simpl.
    unfold booking_findMany, booking_deleteMany. simpl.
    rewrite filter_swap.
    rewrite <- (filter_sortBy startTime_desc _
                  startTime_desc_total startTime_desc_trans).
    split.
    + rewrite filter_twice. apply filter_none. intros x _.
      destruct (Booking.endTime x <? now); reflexivity.
    + f_equal. rewrite filter_twice. apply filter_ext. intros x.
      rewrite Z.geb_leb.
      destruct (Z.ltb_spec (Booking.endTime x) now),
        (Z.leb_spec now (Booking.endTime x)); simpl; try reflexivity; lia.
Qed.

(** X15.  The bulk deletion answers 400 and changes nothing when the body
    holds no array or an empty one.  Otherwise it removes exactly the rows
    whose id is in the list, ids of no row being ignored, reports the
    number of rows removed, and sent again it removes nothing. *)
Theorem X15_bulk_delete :
  forall (db : Db),
    admin_bulk_delete None db
    = (db, Reply.mk 400 (Reply.error "Provide an array of booking IDs"))
    /\ admin_bulk_delete (Some []) db
       = (db, Reply.mk 400 (Reply.error "Provide an array of booking IDs"))
    /\ forall id ids,
         exists db' count,
           admin_bulk_delete (Some (id :: ids)) db
           = (db', Reply.mk 200 (Reply.bookingsDeleted count))
           /\ (forall r, In r (bookings db') <->
                         In r (bookings db)
                         /\ ~ In (Booking.id r) (id :: ids))
           /\ (count + List.length (bookings db'))%nat
              = List.length (bookings db)
           /\ vehicles db' = vehicles db
           /\ admin_bulk_delete (Some (id :: ids)) db'
              = (db', Reply.mk 200 (Reply.bookingsDeleted 0)).
Proof.
  intros db. split; [reflexivity|]. split; [reflexivity|].
  intros id ids. unfold admin_bulk_delete.
  destruct (booking_deleteMany_spec db
              (fun b => existsb (String.eqb (Booking.id b)) (id :: ids)))
    as (Hrows & Hveh & Hcount & Hidem).
  eexists. eexists. split; [reflexivity|].
  split; [|split; [|split]].
  - intros r. rewrite Hrows. apply and_iff_compat_l.
    rewrite <- not_true_iff_false, existsb_exists.
    split.
    + intros Hno Hin. apply Hno. exists (Booking.id r).
      split; [exact Hin | apply String.eqb_refl].
    + intros Hno [x [Hin Hx]]. apply String.eqb_eq in Hx. subst x.
      exact (Hno Hin).
  - exact Hcount.
  - exact Hveh.
  - rewrite Hidem. reflexivity.
Qed.

(** ** Deactivating a vehicle *)

Lemma rejection_post_setActive (f : Vehicle.t -> bool) (db : Db)
    (now : Date) (user : User.t) (newId : string) (body : Body.t) :
  rejection (post_bookings (setActive f db) now user newId body)
  = rejection (post_bookings db now user newId body).
Proof.
  rewrite !post_bookings_cases, vehicle_findUnique_setActive.
  destruct (Body.endTime body <=? Body.startTime body); [reflexivity|].
  destruct (Body.startTime body <? now); [reflexivity|].
  destruct (prisma.vehicle_findUnique db (Body.vehicleId body));
    [|reflexivity].
  simpl. change (checkBookingConflict (setActive f db))
    with (checkBookingConflict db).
  destruct (checkBookingConflict _ _ _ _ _); reflexivity.
Qed.

Lemma rejection_put_setActive (f : Vehicle.t -> bool) (db : Db)
    (now : Date) (user : User.t) (id : string) (body : Body.t) :
  rejection (put_bookings_id (setActive f db) now user id body)
  = rejection (put_bookings_id db now user id body).
Proof.
  rewrite !put_bookings_id_cases, vehicle_findUnique_setActive.
  change (prisma.booking_findUnique (setActive f db) id)
    with (prisma.booking_findUnique db id).
  destruct (prisma.booking_findUnique db id) as [b|]; [|reflexivity].
  destruct (negb _); [reflexivity|].
  destruct (Body.endTime body <=? Body.startTime body); [reflexivity|].
  destruct (Body.startTime body <? now); [reflexivity|].
  destruct (prisma.vehicle_findUnique db (Body.vehicleId body));
    [|reflexivity].
  simpl. change (checkBookingConflict (setActive f db))
    with (checkBookingConflict db).
  destruct (checkBookingConflict _ _ _ _ _); reflexivity.
Qed.

(** The admin update with the body [{ isActive: false }] is a rewriting of
    the flags. *)
Lemma admin_deactivate_setActive (db : Db) (id : string) (v : Vehicle.t) :
  prisma.vehicle_findUnique db id = Some v ->
  admin_put_vehicles_id id (VehicleBody.mk None (Some false)) db
  = (setActive (fun w => if String.eqb (Vehicle.id w) id then false
                         else Vehicle.isActive w) db,
     200).
Proof.
  intros Hv. unfold admin_put_vehicles_id, setActive. rewrite Hv. simpl.
  f_equal. f_equal. apply map_ext. intros w.
  destruct (String.eqb (Vehicle.id w) id); [reflexivity|].
  destruct w; reflexivity.
Qed.

(** X16.  Deactivating a vehicle through the admin update takes it off
    the list of [GET /api/vehicles], which holds the active vehicles only,
    and changes nothing else: the other vehicles are listed as before,
    [GET /api/vehicles/:id] still answers with the vehicle and its number
    of bookings, the bookings stay, and every creation or update of a
    booking, on that vehicle too, is decided as before. *)
Theorem X16_deactivated_vehicle_hidden_but_bookable :
  forall (name_le : string -> string -> bool) (db : Db) (id : string)
         (v : Vehicle.t),
    prisma.vehicle_findUnique db id = Some v ->
    exists db',
      admin_put_vehicles_id id (VehicleBody.mk None (Some false)) db
      = (db', 200)
      /\ (forall w, In w (get_vehicles name_le db') ->
                    Vehicle.id w <> id /\ Vehicle.isActive w = true)
      /\ (forall w, Vehicle.id w <> id ->
                    (In w (get_vehicles name_le db') <->
                     In w (get_vehicles name_le db)))
      /\ get_vehicles_id db' id
         = Some (Vehicle.mk (Vehicle.id v) (Vehicle.name v) false,
                 prisma.booking_count db
                   (fun b => String.eqb (Booking.vehicleId b) id))
      /\ bookings db' = bookings db
      /\ (forall now user newId body,
             rejection (post_bookings db' now user newId body)
             = rejection (post_bookings db now user newId body))
      /\ (forall now user bid body,
             rejection (put_bookings_id db' now user bid body)
             = rejection (put_bookings_id db now user bid body)).
Proof.
  intros name_le db id v Hv.
  rewrite (admin_deactivate_setActive db id v Hv).
  eexists. split; [reflexivity|].
  set (f := fun w => if String.eqb (Vehicle.id w) id then false
                     else Vehicle.isActive w).
  split; [|split; [|split; [|split; [|split]]]].
  - intros w Hw. unfold get_vehicles in Hw.
    apply sortBy_In, filter_In in Hw. destruct Hw as [Hin Hact].
    split; [|exact Hact].
    unfold setActive in Hin. simpl in Hin. apply in_map_iff in Hin.
    destruct Hin as (u & <- & _). simpl in *. unfold f in Hact.
    intros Heq. apply String.eqb_eq in Heq. rewrite Heq in Hact.
    discriminate.
  - intros w Hw. unfold get_vehicles.
    rewrite !sortBy_In, !filter_In. unfold setActive. simpl.
    rewrite in_map_iff. split.
    + intros [(u & <- & Hin) Hact]. simpl in *. unfold f in *.
      apply String.eqb_neq in Hw. rewrite Hw in Hact.
      rewrite Hw. destruct u; simpl in *. split; assumption.
    + intros [Hin Hact]. split; [|exact Hact]. exists w.
      split; [|exact Hin]. unfold f. apply String.eqb_neq in Hw.
      rewrite Hw. destruct w; reflexivity.
  - unfold get_vehicles_id. rewrite vehicle_findUnique_setActive, Hv.
    simpl. unfold f.
    assert (Hid : Vehicle.id v = id).
    { unfold prisma.vehicle_findUnique in Hv. apply find_some in Hv.
      apply String.eqb_eq. tauto. }
    rewrite Hid, String.eqb_refl. reflexivity.
  - reflexivity.
  - intros. apply rejection_post_setActive.
  - intros. apply rejection_put_setActive.
Qed.

Lemma X16_witness :
  exists db',
    admin_put_vehicles_id "v1" (VehicleBody.mk None (Some false)) Ex.db0
    = (db', 200)
    /\ (forall w, In w (get_vehicles String.leb db') ->
                  Vehicle.id w <> "v1" /\ Vehicle.isActive w = true)
    /\ (forall w, Vehicle.id w <> "v1" ->
                  (In w (get_vehicles String.leb db') <->
                   In w (get_vehicles String.leb Ex.db0)))
    /\ get_vehicles_id db' "v1"
       = Some (Vehicle.mk (Vehicle.id Ex.van) (Vehicle.name Ex.van) false,
               prisma.booking_count Ex.db0
                 (fun b => String.eqb (Booking.vehicleId b) "v1"))
    /\ bookings db' = bookings Ex.db0
    /\ (forall now user newId body,
           rejection (post_bookings db' now user newId body)
           = rejection (post_bookings Ex.db0 now user newId body))
    /\ (forall now user bid body,
           rejection (put_bookings_id db' now user bid body)
           = rejection (put_bookings_id Ex.db0 now user bid body)).
Proof.
  apply (X16_deactivated_vehicle_hidden_but_bookable String.leb Ex.db0 "v1"
           Ex.van).
  reflexivity.
Defined.

(** ** The pages *)



(** X18.  The page [MyBookings] splits the caller's bookings again, with
    [endTime > now] for the upcoming ones, where the route used
    [endTime >= now].  Read at one instant, the page and the route agree on
    every booking whose [endTime] is not [now]; a booking that ends exactly
    at [now] is under [upcoming] in the answer of the route and under the
    past bookings on the page.  The page lists the upcoming bookings in
    ascending order of [startTime]. *)
Theorem X18_page_split_boundary :
  forall (db : Db) (now : Date) (user : User.t),
    let r := get_bookings_my db now user in
    (forall b, Booking.endTime b <> now ->
               (In b (page_upcoming now (My.bookings r)) <->
                In b (My.upcoming r))
               /\ (In b (page_past now (My.bookings r)) <->
                   In b (My.past r)))
    /\ (forall b, In b (My.bookings r) -> Booking.endTime b = now ->
                  In b (My.upcoming r)
                  /\ In b (page_past now (My.bookings r)))
    /\ Permutation
         (page_upcoming now (My.bookings r)
          ++ page_past now (My.bookings r))
         (My.bookings r)
    /\ StronglySorted
         (fun a b => Booking.startTime a <= Booking.startTime b)
         (page_upcoming now (My.bookings r)).
Proof.
  intros db now user r. subst r. unfold get_bookings_my. simpl.
  set (mine := booking_findMany db _ startTime_desc).
  unfold page_upcoming, page_past.
  split; [|split; [|split]].
  - intros b Hb.
    rewrite !sortBy_In, <- in_rev, !filter_In.
    rewrite negb_true_iff, Z.gtb_ltb, Z.geb_leb, Z.ltb_lt, Z.ltb_ge,
      Z.leb_le, Z.ltb_lt.
    split; split; intros [Hin H]; (split; [exact Hin | lia]).
  - intros b Hin Hb.
    rewrite sortBy_In, <- in_rev, !filter_In.
    rewrite negb_true_iff, Z.gtb_ltb, Z.geb_leb, Z.ltb_ge, Z.leb_le.
    split; (split; [exact Hin | lia]).
  - apply Permutation_trans with
      (filter (fun b => Booking.endTime b >? now) mine
       ++ filter (fun b => negb (Booking.endTime b >? now)) mine)%list.
    + apply Permutation_app; apply sortBy_perm.
    + apply filter_split_perm. reflexivity.
  - apply startTime_asc_sorted.
Qed.

(** ** Deletions and the admin update on a consistent table *)

Lemma ForallOrdPairs_filter {A : Type} (R : A -> A -> Prop) (p : A -> bool)
    (l : list A) :
  ForallOrdPairs R l -> ForallOrdPairs R (filter p l).
Proof.
  intros Hl. induction Hl as [|x l Hx Hl IH]; simpl.
  - constructor.
  - destruct (p x); [|exact IH].
    constructor; [|exact IH].
    apply Forall_forall. intros y Hy. apply filter_In in Hy.
    exact (proj1 (Forall_forall _ _) Hx y (proj1 Hy)).
Qed.

Lemma Forall_filter {A : Type} (P : A -> Prop) (p : A -> bool)
    (l : list A) :
  Forall P l -> Forall P (filter p l).
Proof.
  intros Hl. apply Forall_forall. intros y Hy. apply filter_In in Hy.
  exact (proj1 (Forall_forall _ _) Hl y (proj1 Hy)).
Qed.

Lemma NoDup_map_filter {A B : Type} (g : A -> B) (p : A -> bool)
    (l : list A) :
  NoDup (map g l) -> NoDup (map g (filter p l)).
Proof.
  induction l as [|x l IH]; simpl; intros Hnd.
  - constructor.
  - inversion Hnd as [|? ? Hx Hnd']; subst.
    destruct (p x); simpl; [|apply IH; exact Hnd'].
    constructor; [|apply IH; exact Hnd'].
    intros Hin. apply Hx. apply in_map_iff in Hin.
    destruct Hin as (y & Hy & Hin). apply filter_In in Hin.
    apply in_map_iff. exists y. tauto.
Qed.

Lemma filter_keeps_invariants (db : Db) (p : Booking.t -> bool) :
  noDoubleBooking db -> uniqueIds db ->
  noDoubleBooking (mkDb (filter p (bookings db)) (vehicles db))
  /\ uniqueIds (mkDb (filter p (bookings db)) (vehicles db)).
Proof.
  intros [Hvalid Hpairs] Hids. unfold noDoubleBooking, uniqueIds. simpl.
  split; [split|].
  - apply Forall_filter. exact Hvalid.
  - apply ForallOrdPairs_filter. exact Hpairs.
  - apply NoDup_map_filter. exact Hids.
Qed.

(** X19.  Every deletion keeps a table of valid rows free of double
    bookings and keeps the ids apart: the owner's [DELETE], the cleanup of
    past bookings and the bulk deletion. *)
Theorem X19_deletions_keep_invariants :
  forall (db : Db) (user : User.t) (id : string) (now : Date)
         (ids : option (list string)),
    noDoubleBooking db -> uniqueIds db ->
    (forall db', delete_bookings_id db user id = Ok db' ->
                 noDoubleBooking db' /\ uniqueIds db')
    /\ (noDoubleBooking (fst (admin_cleanup_past now db))
        /\ uniqueIds (fst (admin_cleanup_past now db)))
    /\ (noDoubleBooking (fst (admin_bulk_delete ids db))
        /\ uniqueIds (fst (admin_bulk_delete ids db))).
Proof.
  intros db user id now ids Hinv Hids. split; [|split].
  - intros db'. unfold delete_bookings_id, orThrow, throwIf, bind.
    destruct (prisma.booking_findUnique db id) as [x|]; [|discriminate].
    destruct (negb _); [discriminate|].
    intros Heq. injection Heq as <-.
    apply filter_keeps_invariants; assumption.
  - apply filter_keeps_invariants; assumption.
  - unfold admin_bulk_delete. destruct ids as [[|i ids]|].
    + split; assumption.
    + apply filter_keeps_invariants; assumption.
    + split; assumption.
Qed.

Lemma X19_witness :
  (forall db', delete_bookings_id Ex.db2 Ex.alice "b1" = Ok db' ->
               noDoubleBooking db' /\ uniqueIds db')
  /\ (noDoubleBooking (fst (admin_cleanup_past 25 Ex.db2))
      /\ uniqueIds (fst (admin_cleanup_past 25 Ex.db2)))
  /\ (noDoubleBooking (fst (admin_bulk_delete (Some ["b2"]) Ex.db2))
      /\ uniqueIds (fst (admin_bulk_delete (Some ["b2"]) Ex.db2))).
Proof.
  apply (X19_deletions_keep_invariants Ex.db2 Ex.alice "b1" 25
           (Some ["b2"])).
  - split.
    + repeat constructor.
    + repeat constructor; intros _; reflexivity.
  - unfold uniqueIds. simpl. repeat constructor; simpl.
    + intros [H|[]]. discriminate H.
    + intros [].
Defined.

(** The admin update as a decision list for a body that carries
    [vehicleId], [startTime] and [endTime]. *)
Lemma admin_put_200 (db : Db) (id : string) (body : AdminBody.t) :
  Res.status (snd (admin_put_bookings_id id body db)) = 200 ->
  admin_conflict db id body = None
  /\ fst (admin_put_bookings_id id body db)
     = prisma.booking_update db id (admin_put_data body).
Proof.
  unfold admin_put_bookings_id.
  destruct (admin_conflict db id body); [discriminate|].
  unfold prisma.booking_update_or_throw.
  destruct (prisma.booking_findUnique db id); [|discriminate].
  destruct (prisma.vehicle_findUnique db _); [|discriminate].
  intros _. split; reflexivity.
Qed.

(** X20.  The admin update keeps a consistent table consistent when its
    body is complete and its interval valid: with [vehicleId], [startTime]
    and [endTime] all given and [startTime < endTime], an update answered
    with 200 leaves every row valid, no two rows of one vehicle
    intersecting, and the ids apart. *)
Theorem X20_admin_put_complete_body_keeps_noDoubleBooking :
  forall (db : Db) (id : string) (body : AdminBody.t)
         (vehicleId : string) (startTime endTime : Date),
    noDoubleBooking db -> uniqueIds db ->
    truthyId (AdminBody.vehicleId body) = Some vehicleId ->
    AdminBody.startTime body = Some startTime ->
    AdminBody.endTime body = Some endTime ->
    startTime < endTime ->
    Res.status (snd (admin_put_bookings_id id body db)) = 200 ->
    noDoubleBooking (fst (admin_put_bookings_id id body db))
    /\ uniqueIds (fst (admin_put_bookings_id id body db)).
Proof.
  intros db id body vehicleId startTime endTime [Hvalid Hpairs] Hids
    Hv Hs He Hi H200.
  destruct (admin_put_200 _ _ _ H200) as [Hc Hdb]. rewrite Hdb.
  unfold admin_conflict in Hc. rewrite Hv, Hs, He in Hc.
  unfold noDoubleBooking, uniqueIds, prisma.booking_update. simpl.
  set (f := fun b0 : Booking.t =>
              if String.eqb (Booking.id b0) id then admin_put_data body b0
              else b0).
  assert (Hother : forall r, Booking.id r <> id -> f r = r).
  { intros r Hr. unfold f. apply String.eqb_neq in Hr. rewrite Hr.
    reflexivity. }
  assert (Hsame : forall r, Booking.id r = id ->
                            f r = admin_put_data body r).
  { intros r Hr. unfold f. apply String.eqb_eq in Hr. rewrite Hr.
    reflexivity. }
  assert (Hfid : forall r, Booking.id (f r) = Booking.id r).
  { intros r. unfold f. destruct (String.eqb (Booking.id r) id);
      reflexivity. }
  assert (Hnew : forall r,
             Booking.vehicleId (admin_put_data body r) = vehicleId
             /\ Booking.startTime (admin_put_data body r) = startTime
             /\ Booking.endTime (admin_put_data body r) = endTime).
  { intros r. unfold admin_put_data. simpl. rewrite Hv, Hs, He.
    repeat split. }
  split; [split|].
  - apply Forall_forall. intros y' Hy'. apply in_map_iff in Hy'.
    destruct Hy' as (y & <- & Hy).
    destruct (string_dec (Booking.id y) id) as [Hyid|Hyid].
    + rewrite (Hsame y Hyid). unfold validRow.
      destruct (Hnew y) as (_ & -> & ->). exact Hi.
    + rewrite (Hother y Hyid).
      exact (proj1 (Forall_forall _ _) Hvalid y Hy).
  - apply (ForallOrdPairs_update compatible
             (fun r => In r (bookings db)) f id);
      try assumption.
    + intros r r' Hr Hr' Hin. rewrite (Hsame r Hr).
      destruct (Hnew r) as (Hnv & Hns & Hne).
      assert (H : Booking.vehicleId r' = vehicleId ->
                  intersects startTime endTime (Booking.startTime r')
                    (Booking.endTime r') = false).
      { intros Hveh. rewrite <- adminOR_intersects.
        pose proof (find_none_false _ _ r' Hc Hin) as Hb.
        unfold adminConflictWhere in Hb.
        apply String.eqb_neq in Hr'. apply String.eqb_eq in Hveh.
        rewrite Hr', Hveh in Hb. exact Hb. }
      unfold compatible. rewrite Hnv, Hns, Hne. split; intros Hveh.
      * apply H. symmetry. exact Hveh.
      * rewrite intersects_sym. apply H. exact Hveh.
    + apply Forall_forall. intros r Hr. exact Hr.
  - rewrite map_map. rewrite (map_ext _ Booking.id Hfid). exact Hids.
Qed.

Lemma X20_witness :
  noDoubleBooking
    (fst (admin_put_bookings_id "b1"
            (AdminBody.mk (Some "v1") (Some 20) (Some 30) None None)
            Ex.db2))
  /\ uniqueIds
       (fst (admin_put_bookings_id "b1"
               (AdminBody.mk (Some "v1") (Some 20) (Some 30) None None)
               Ex.db2)).
Proof.
  apply (X20_admin_put_complete_body_keeps_noDoubleBooking Ex.db2 "b1"
           (AdminBody.mk (Some "v1") (Some 20) (Some 30) None None)
           "v1" 20 30);
    try reflexivity.
  - split.
    + repeat constructor.
    + repeat constructor; intros _; reflexivity.
  - unfold uniqueIds. simpl. repeat constructor; simpl.
    + intros [H|[]]. discriminate H.
    + intros [].
Defined.

(** ** Colours *)

Lemma clampChannel_range (c : Z) : 0 <= clampChannel c <= 255.
Proof.
  unfold clampChannel.
  destruct (Z.ltb_spec c 255); [destruct (Z.ltb_spec c 1)|]; lia.
Qed.

Lemma clampChannel_lighter (c amt : Z) :
  0 <= c <= 255 -> 0 <= amt -> c <= clampChannel (c + amt).
Proof.
  intros Hc Hamt. unfold clampChannel.
  destruct (Z.ltb_spec (c + amt) 255); [destruct (Z.ltb_spec (c + amt) 1)|];
    lia.
Qed.

Lemma land_ff (x : Z) : Z.land x 0xff = x mod 256.
Proof. change 0xff with (Z.ones 8). apply Z.land_ones. lia. Qed.

Lemma channels_of (r g b : Z) :
  0 <= r <= 255 -> 0 <= g <= 255 -> 0 <= b <= 255 ->
  let n := 0x1000000 + r * 0x10000 + g * 0x100 + b in
  Z.land (Z.shiftr n 16) 0xff = r
  /\ Z.land (Z.shiftr n 8) 0xff = g
  /\ Z.land n 0xff = b.
Proof.
  intros Hr Hg Hb n. subst n.
  rewrite !land_ff, !Z.shiftr_div_pow2 by lia.
  change (2 ^ 16) with 65536. change (2 ^ 8) with 256.
  repeat split; Z.div_mod_to_equations; lia.
Qed.

(** X21.  [lightenColor] always prints a colour of six hexadecimal digits:
    the number it prints lies between [0x1000000] and [0x1ffffff], so that
    dropping the first digit leaves six, and its three channels are the
    channels of the input plus [amt], each clamped to [0, 255].  For a
    colour of six digits and [amt >= 0] no channel gets darker, and
    [amt = 0] gives the colour back. *)
Theorem X21_lightenColor_is_a_colour :
  forall num amt : Z,
    0x1000000 <= lightenColor num amt <= 0x1ffffff
    /\ Z.land (Z.shiftr (lightenColor num amt) 16) 0xff
       = clampChannel (Z.shiftr (toInt32 num) 16 + amt)
    /\ Z.land (Z.shiftr (lightenColor num amt) 8) 0xff
       = clampChannel (Z.land (Z.shiftr (toInt32 num) 8) 0xff + amt)
    /\ Z.land (lightenColor num amt) 0xff
       = clampChannel (Z.land (toInt32 num) 0xff + amt)
    /\ (0 <= num <= 0xffffff -> 0 <= amt ->
        Z.land (Z.shiftr num 16) 0xff
        <= Z.land (Z.shiftr (lightenColor num amt) 16) 0xff
        /\ Z.land (Z.shiftr num 8) 0xff
           <= Z.land (Z.shiftr (lightenColor num amt) 8) 0xff
        /\ Z.land num 0xff <= Z.land (lightenColor num amt) 0xff)
    /\ (0 <= num <= 0xffffff -> lightenColor num 0 = 0x1000000 + num).
Proof.
  intros num amt.
  pose proof (clampChannel_range (Z.shiftr (toInt32 num) 16 + amt)) as HR.
  pose proof (clampChannel_range
                (Z.land (Z.shiftr (toInt32 num) 8) 0xff + amt)) as HG.
  pose proof (clampChannel_range (Z.land (toInt32 num) 0xff + amt)) as HB.
  assert (Hchannels :
            Z.land (Z.shiftr (lightenColor num amt) 16) 0xff
            = clampChannel (Z.shiftr (toInt32 num) 16 + amt)
            /\ Z.land (Z.shiftr (lightenColor num amt) 8) 0xff
               = clampChannel (Z.land (Z.shiftr (toInt32 num) 8) 0xff + amt)
            /\ Z.land (lightenColor num amt) 0xff
               = clampChannel (Z.land (toInt32 num) 0xff + amt))
    by exact (channels_of _ _ _ HR HG HB).
  destruct Hchannels as (H16 & H8 & H0).
  split; [unfold lightenColor; lia|].
  split; [exact H16|]. split; [exact H8|]. split; [exact H0|].
  assert (Hsmall : 0 <= num <= 0xffffff -> toInt32 num = num).
  { intros Hn. unfold toInt32.
    change (2 ^ 31) with 2147483648. change (2 ^ 32) with 4294967296.
    rewrite Z.mod_small by lia. lia. }
  assert (Hch : 0 <= num <= 0xffffff ->
                0 <= Z.shiftr num 16 <= 255
                /\ Z.land (Z.shiftr num 16) 0xff = Z.shiftr num 16
                /\ 0 <= Z.land (Z.shiftr num 8) 0xff <= 255
                /\ 0 <= Z.land num 0xff <= 255
                /\ num = Z.shiftr num 16 * 0x10000
                         + Z.land (Z.shiftr num 8) 0xff * 0x100
                         + Z.land num 0xff).
  { intros Hn. rewrite !land_ff, !Z.shiftr_div_pow2 by lia.
    change (2 ^ 16) with 65536. change (2 ^ 8) with 256.
    repeat split; Z.div_mod_to_equations; lia. }
  split.
  - intros Hn Hamt. destruct (Hch Hn) as (HR0 & HRm & HG0 & HB0 & _).
    rewrite H16, H8, H0, (Hsmall Hn), HRm.
    repeat split; apply clampChannel_lighter; assumption.
  - intros Hn. destruct (Hch Hn) as (HR0 & _ & HG0 & HB0 & Hsum).
    unfold lightenColor. rewrite (Hsmall Hn), !Z.add_0_r.
    unfold clampChannel.
    destruct (Z.ltb_spec (Z.shiftr num 16) 255);
      [destruct (Z.ltb_spec (Z.shiftr num 16) 1)|];
    (destruct (Z.ltb_spec (Z.land (Z.shiftr num 8) 0xff) 255);
      [destruct (Z.ltb_spec (Z.land (Z.shiftr num 8) 0xff) 1)|]);
    (destruct (Z.ltb_spec (Z.land num 0xff) 255);
      [destruct (Z.ltb_spec (Z.land num 0xff) 1)|]);
    lia.
Qed.
